(** * streamlit_app.py: the Wi-Fi credential encoder, the UUID gate of the
      pinger tab and the dataframe filter, as a shallow embedding.

    Streamlit widgets are the program's inputs.  A widget call is modelled
    as an oracle that receives the arguments the script passes (label,
    options, default, bounds) and returns what the viewer entered; the
    script is then a pure function of the oracle record [UI] and of the
    dataframe.  Library routines whose full behaviour is outside the
    repository ([pd.to_datetime], [re.compile], [str] of a number) are
    fields of an environment record [Env]; [uuid.UUID] is transcribed from
    CPython's uuid.py. *)

From Stdlib Require Import Bool Arith List String Ascii ZArith NArith QArith Lia.
Import ListNotations.
Open Scope string_scope.

(** ** Python string helpers *)

Module Py.

(** [len(s) == 0] decides the truth value of a Python string. *)
Definition truthy (s : string) : bool :=
  match s with EmptyString => false | String _ _ => true end.

Fixpoint is_prefix (p s : string) : bool :=
  match p, s with
  | EmptyString, _ => true
  | String a p', String b s' => Ascii.eqb a b && is_prefix p' s'
  | String _ _, EmptyString => false
  end.

(** [s.replace(old, "")] for a non-empty [old]: occurrences are removed left
    to right without overlap.  [skip] counts the characters of the
    occurrence being dropped. *)
Fixpoint remove_from (old : string) (skip : nat) (s : string) : string :=
  match s with
  | EmptyString => EmptyString
  | String c s' =>
      match skip with
      | S k => remove_from old k s'
      | O => if is_prefix old s
             then remove_from old (String.length old - 1) s'
             else String c (remove_from old 0 s')
      end
  end.

Definition remove_all (old s : string) : string := remove_from old 0 s.

Definition in_chars (c : ascii) (chars : string) : bool :=
  existsb (Ascii.eqb c) (list_ascii_of_string chars).

Fixpoint lstrip (chars s : string) : string :=
  match s with
  | EmptyString => EmptyString
  | String c s' => if in_chars c chars then lstrip chars s' else s
  end.

Definition rev_string (s : string) : string :=
  string_of_list_ascii (rev (list_ascii_of_string s)).

Definition rstrip (chars s : string) : string :=
  rev_string (lstrip chars (rev_string s)).

(** [s.strip(chars)] *)
Definition strip (chars s : string) : string := rstrip chars (lstrip chars s).

(** An f-string is the concatenation of its literal and formatted pieces. *)
Definition fstring (pieces : list string) : string := String.concat "" pieces.

End Py.

(** ** Exceptions *)

Inductive exn : Type :=
| ValueError (msg : string)
| KeyError (key : string)
| ReError                       (* re.error: not a subclass of ValueError *)
| OtherError (msg : string).

Inductive result (A : Type) : Type :=
| Ok (a : A)
| Raise (e : exn).
Arguments Ok {A} a.
Arguments Raise {A} e.

Definition bind {A B : Type} (r : result A) (k : A -> result B) : result B :=
  match r with
  | Ok a => k a
  | Raise e => Raise e
  end.

Notation "x <- r ;; k" := (bind r (fun x => k))
  (at level 61, r at next level, right associativity).

Definition is_ValueError (e : exn) : bool :=
  match e with ValueError _ => true | _ => false end.

(** ** Dataframes *)

(** A calendar date as returned by [st.date_input], in days since the
    epoch.  A timestamp counts nanoseconds since the epoch: of UTC in a
    timezone-aware column, of the wall clock in a naive one. *)
Definition date := Z.

Definition ns_per_day : Z := 86400000000000.

(** A Python float: [None] is nan. *)
Definition float := option Q.

(** A cell of a pandas column. *)
Inductive cell : Type :=
| CNum (q : Q)        (* an int or a finite float *)
| CNaN                (* float nan: the missing numeric value *)
| CStr (s : string)
| CNone               (* None in an object column *)
| CTime (t : Z)       (* a timestamp *)
| CNaT.               (* the missing timestamp *)

(** A timezone: the offset from UTC, in nanoseconds, at a UTC instant. *)
Record tzinfo : Type := { utcoffset : Z -> Z }.

Inductive dtype : Type :=
| Category
| Numeric                          (* int64, float64, bool *)
| Datetime64 (tz : option tzinfo)
| Object
| OtherDtype.                      (* timedelta64, string, ... *)

Record column : Type := {
  col_name : string;
  col_dtype : dtype;
  col_values : list cell
}.

(** Columns are held in order; their labels are unique, and every column
    is as long as the index ([well_formed] below). *)
Record DataFrame : Type := {
  df_index : list Z;
  df_columns : list column
}.

(** ** Library routines taken as parameters *)

Record Env : Type := {
  (* pd.to_datetime(series): a datetime64 column, given by its timezone
     (one for the whole column, or none) and its values, or an exception
     (any: the script catches Exception) *)
  pd_to_datetime : list cell -> option (option tzinfo * list cell);
  (* re.compile(pat): the compiled pattern's [search(s) is not None],
     or re.error *)
  re_compile : string -> option (string -> bool);
  (* str(x) of a number and of a Timestamp *)
  str_num : Q -> string;
  str_time : Z -> string;
  (* the Snowpark query of the pinger tab, by device UUID *)
  snowflake_query : string -> result DataFrame
}.

(** ** Widgets

    What each widget call answers in one run of the script.  An answer
    stands for a call that returned: Streamlit refuses some arguments
    (a default that is not among the options, as happens with a missing
    value, which is not equal to itself; a slider whose step is zero) and
    raises instead, and such a call has no answer to speak of. *)

Record UI : Type := {
  st_checkbox : string -> bool;
  st_text_input : string -> string;
  st_selectbox : string -> list string -> string;
  st_button : string -> bool;
  (* st.multiselect(label, df.columns) *)
  st_multiselect_columns : string -> list string -> list string;
  (* st.multiselect(label, options, default=...) *)
  st_multiselect : string -> list cell -> list cell -> list cell;
  (* st.slider(label, min_value, max_value, value, step) *)
  st_slider : string -> float -> float -> float * float -> float
              -> float * float;
  (* st.date_input(label, value=(lo, hi)) *)
  st_date_input : string -> cell * cell -> list date
}.

(** ** Wi-Fi credential encoder and the generator tab *)

Module Wifi.

Inductive error_correction : Type := ERROR_CORRECT_L | ERROR_CORRECT_M
                                   | ERROR_CORRECT_Q | ERROR_CORRECT_H.

(** What [qrcode.QRCode(...)], [add_data], [make] and [make_image] were
    given; the raster itself is the barcode library's business. *)
Record qr_image : Type := {
  qr_version : Z;
  qr_error_correction : error_correction;
  qr_box_size : Z;
  qr_border : Z;
  qr_data : string;
  qr_fit : bool;
  qr_fill_color : string;
  qr_back_color : string
}.

Definition wifi_string (ssid authentication password : string) (hidden : bool)
  : string :=
  Py.fstring ["WIFI:T:"; authentication; ";S:"; ssid; ";P:"; password;
              ";H:"; (if hidden then "true" else "false"); ";;"].

Definition generate_wifi_qr (ssid authentication password : string)
  (hidden : bool) : qr_image :=
  {| qr_version := 1;
     qr_error_correction := ERROR_CORRECT_L;
     qr_box_size := 10;
     qr_border := 4;
     qr_data := wifi_string ssid authentication password hidden;
     qr_fit := true;
     qr_fill_color := "black";
     qr_back_color := "white" |}.

(** What the tab renders below its four input widgets. *)
Inductive rendered : Type :=
| Nothing
| StError (msg : string)
| QrCode (img : qr_image).

Definition auth_options : list string := ["WPA3-SAE"; "WPA2-PSK"; "OPEN"].

Definition tab2_ssid (ui : UI) : string :=
  st_text_input ui "SSID (Wi-Fi Network Name)".

Definition tab2_authentication (ui : UI) : string :=
  st_selectbox ui "Authentication Type" auth_options.

(** [st.text_input("Password", ...) if authentication != "OPEN" else ""] *)
Definition tab2_password (ui : UI) : string :=
  if negb (String.eqb (tab2_authentication ui) "OPEN")
  then st_text_input ui "Password"
  else "".

Definition tab2_hidden (ui : UI) : bool := st_checkbox ui "Hidden SSID".

Definition tab2 (ui : UI) : rendered :=
  let ssid := tab2_ssid ui in
  let authentication := tab2_authentication ui in
  let password := tab2_password ui in
  let hidden := tab2_hidden ui in
  if st_button ui "Generate QR Code" then
    if negb (Py.truthy ssid) then StError "SSID is required!"
    else if negb (String.eqb authentication "OPEN") && negb (Py.truthy password)
    then StError "Password is required for selected authentication!"
    else QrCode (generate_wifi_qr ssid authentication password hidden)
  else Nothing.

End Wifi.

(** ** pandas operations the filter uses *)

Module Frame.

Definition columns (df : DataFrame) : list string :=
  map col_name (df_columns df).

(** [df[name]] *)
Definition get_column (df : DataFrame) (name : string) : option column :=
  find (fun c => String.eqb name (col_name c)) (df_columns df).

Definition is_categorical_dtype (c : column) : bool :=
  match col_dtype c with Category => true | _ => false end.

Definition is_numeric_dtype (c : column) : bool :=
  match col_dtype c with Numeric => true | _ => false end.

Definition is_datetime64_any_dtype (c : column) : bool :=
  match col_dtype c with Datetime64 _ => true | _ => false end.

Definition is_object_dtype (c : column) : bool :=
  match col_dtype c with Object => true | _ => false end.

(** Equality of cells as pandas' hash tables see it: nan equals nan. *)
Definition cell_eqb (x y : cell) : bool :=
  match x, y with
  | CNum p, CNum q => Qeq_bool p q
  | CNaN, CNaN => true
  | CStr s, CStr t => String.eqb s t
  | CNone, CNone => true
  | CTime s, CTime t => Z.eqb s t
  | CNaT, CNaT => true
  | _, _ => false
  end.

Definition notna (x : cell) : bool :=
  match x with
  | CNaN | CNone | CNaT => false
  | _ => true
  end.

(** [series.unique()]: the distinct values in order of first appearance,
    missing values included. *)
Fixpoint unique (l : list cell) : list cell :=
  match l with
  | [] => []
  | x :: r => x :: filter (fun y => negb (cell_eqb x y)) (unique r)
  end.

(** [series.nunique()]: missing values are not counted. *)
Definition nunique (l : list cell) : nat :=
  List.length (unique (filter notna l)).

(** [series.isin(values)], for one cell. *)
Definition isin (values : list cell) (x : cell) : bool :=
  existsb (cell_eqb x) values.

Definition Qmin_b (p q : Q) : Q := if Qle_bool p q then p else q.
Definition Qmax_b (p q : Q) : Q := if Qle_bool p q then q else p.

(** [float(series.min())] and [float(series.max())] of a numeric column:
    missing values are skipped; nan when nothing is left.  The number is
    kept as it is, which is what [float] does to a float64 and to an int64
    of at most 53 bits; a longer int64 is rounded by [float], and is not
    followed here. *)
Fixpoint num_min (l : list cell) : float :=
  match l with
  | [] => None
  | CNum q :: r =>
      match num_min r with Some m => Some (Qmin_b q m) | None => Some q end
  | _ :: r => num_min r
  end.

Fixpoint num_max (l : list cell) : float :=
  match l with
  | [] => None
  | CNum q :: r =>
      match num_max r with Some m => Some (Qmax_b q m) | None => Some q end
  | _ :: r => num_max r
  end.

(** [(a - b) / 100] on floats, nan propagating (rounding left out: the
    result only feeds the slider's step). *)
Definition slider_step (hi lo : float) : float :=
  match hi, lo with
  | Some a, Some b => Some ((a - b) / 100)%Q
  | _, _ => None
  end.

(** [series.between(left, right)], for one cell: both ends included, and
    every comparison with nan is false. *)
Definition between (left right : float) (x : cell) : bool :=
  match left, right, x with
  | Some a, Some b, CNum q => Qle_bool a q && Qle_bool q b
  | _, _, _ => false
  end.

(** [series.min()] and [series.max()] of a datetime column: NaT when no
    timestamp is left. *)
Fixpoint time_min (l : list cell) : cell :=
  match l with
  | [] => CNaT
  | CTime t :: r =>
      match time_min r with CTime m => CTime (Z.min t m) | _ => CTime t end
  | _ :: r => time_min r
  end.

Fixpoint time_max (l : list cell) : cell :=
  match l with
  | [] => CNaT
  | CTime t :: r =>
      match time_max r with CTime m => CTime (Z.max t m) | _ => CTime t end
  | _ :: r => time_max r
  end.

(** [pd.to_datetime(d)] of a [datetime.date]: midnight of that day, for
    a day a nanosecond timestamp reaches (1677-09-22 to 2262-04-11); on
    another day pandas raises OutOfBoundsDatetime, which is not followed
    here. *)
Definition to_datetime_date (d : date) : Z := (d * ns_per_day)%Z.

(** [timestamp.date()] *)
Definition date_of (t : Z) : date := (t / ns_per_day)%Z.

Definition between_time (start_date end_date : Z) (x : cell) : bool :=
  match x with
  | CTime t => Z.leb start_date t && Z.leb t end_date
  | _ => false
  end.

(** [str(x)], as [series.astype(str)] applies it to each cell. *)
Definition cell_str (env : Env) (x : cell) : string :=
  match x with
  | CNum q => str_num env q
  | CNaN => "nan"
  | CStr s => s
  | CNone => "None"
  | CTime t => str_time env t
  | CNaT => "NaT"
  end.

(** Boolean-mask selection: [xs[mask]]. *)
Fixpoint select {A : Type} (mask : list bool) (xs : list A) : list A :=
  match mask, xs with
  | b :: mask', x :: xs' =>
      if b then x :: select mask' xs' else select mask' xs'
  | _, _ => []
  end.

Definition mask_column (mask : list bool) (c : column) : column :=
  {| col_name := col_name c;
     col_dtype := col_dtype c;
     col_values := select mask (col_values c) |}.

(** [df[mask]]: the rows where the mask holds, index labels kept. *)
Definition mask_df (mask : list bool) (df : DataFrame) : DataFrame :=
  {| df_index := select mask (df_index df);
     df_columns := map (mask_column mask) (df_columns df) |}.

(** [mask1 & mask2] *)
Fixpoint mask_and (m1 m2 : list bool) : list bool :=
  match m1, m2 with
  | a :: m1', b :: m2' => (a && b) :: mask_and m1' m2'
  | _, _ => []
  end.

Definition nrows (df : DataFrame) : nat := List.length (df_index df).

Fixpoint unique_labels (index : list Z) : bool :=
  match index with
  | [] => true
  | i :: rest => negb (existsb (Z.eqb i) rest) && unique_labels rest
  end.

(** Row alignment: no index label occurs twice and every column is as long
    as the index. *)
Definition well_formed (df : DataFrame) : bool :=
  unique_labels (df_index df)
  && forallb (fun c => Nat.eqb (List.length (col_values c))
                               (List.length (df_index df)))
             (df_columns df).

(** [series.dt.tz_localize(None)]: the wall clock of each instant in the
    column's timezone; a naive column is returned as it is. *)
Definition localize_cell (tz : option tzinfo) (x : cell) : cell :=
  match tz, x with
  | Some z, CTime t => CTime (t + utcoffset z t)
  | _, _ => x
  end.

Definition tz_localize_none (c : column) : column :=
  match col_dtype c with
  | Datetime64 tz =>
      {| col_name := col_name c;
         col_dtype := Datetime64 None;
         col_values := map (localize_cell tz) (col_values c) |}
  | _ => c
  end.

End Frame.

(** ** filter_dataframe *)

Module Filter.
Import Frame.

(** The Column Kind: which branch of the if/elif chain a column takes. *)
Inductive kind : Type := Categorical | Numerical | Temporal | Textual.

Definition column_kind (c : column) : kind :=
  if is_categorical_dtype c || (nunique (col_values c) <? 10)%nat
  then Categorical
  else if is_numeric_dtype c then Numerical
  else if is_datetime64_any_dtype c then Temporal
  else Textual.

(** One turn of the normalisation loop: [pd.to_datetime] on an object
    column, its exception swallowed; then the timezone is dropped from any
    datetime column. *)
Definition normalize_column (env : Env) (c : column) : column :=
  let c1 :=
    if is_object_dtype c then
      match pd_to_datetime env (col_values c) with
      | Some (tz, parsed) =>
          {| col_name := col_name c;
             col_dtype := Datetime64 tz;
             col_values := parsed |}
      | None => c
      end
    else c in
  if is_datetime64_any_dtype c1 then tz_localize_none c1 else c1.

(** [df = df.copy()] followed by the loop over [df.columns]. *)
Definition normalize (env : Env) (df : DataFrame) : DataFrame :=
  {| df_index := df_index df;
     df_columns := map (normalize_column env) (df_columns df) |}.

(** The body of the loop over [to_filter_columns], for one column. *)
Definition filter_column (env : Env) (ui : UI) (df : DataFrame)
  (name : string) : result DataFrame :=
  match get_column df name with
  | None => Raise (KeyError name)
  | Some c =>
      match column_kind c with
      | Categorical =>
          let user_cat_input :=
            st_multiselect ui (Py.fstring ["Values for "; name])
              (unique (col_values c)) (unique (col_values c)) in
          Ok (mask_df (map (isin user_cat_input) (col_values c)) df)
      | Numerical =>
          let _min := num_min (col_values c) in
          let _max := num_max (col_values c) in
          let step := slider_step _max _min in
          let user_num_input :=
            st_slider ui (Py.fstring ["Values for "; name])
              _min _max (_min, _max) step in
          Ok (mask_df (map (between (fst user_num_input) (snd user_num_input))
                           (col_values c)) df)
      | Temporal =>
          let user_date_input :=
            st_date_input ui (Py.fstring ["Values for "; name])
              (time_min (col_values c), time_max (col_values c)) in
          match user_date_input with
          | [d1; d2] =>
              let start_date := to_datetime_date d1 in
              let end_date := to_datetime_date d2 in
              Ok (mask_df (map (between_time start_date end_date)
                               (col_values c)) df)
          | _ => Ok df
          end
      | Textual =>
          let user_text_input :=
            st_text_input ui (Py.fstring ["Substring or regex in "; name]) in
          if Py.truthy user_text_input then
            match re_compile env user_text_input with
            | None => Raise ReError
            | Some search =>
                Ok (mask_df (map (fun x => search (cell_str env x))
                                 (col_values c)) df)
            end
          else Ok df
      end
  end.

Fixpoint filter_columns (env : Env) (ui : UI) (df : DataFrame)
  (to_filter_columns : list string) : result DataFrame :=
  match to_filter_columns with
  | [] => Ok df
  | column :: rest =>
      df' <- filter_column env ui df column ;;
      filter_columns env ui df' rest
  end.

Definition filter_dataframe (env : Env) (ui : UI) (df : DataFrame)
  : result DataFrame :=
  let modify := st_checkbox ui "Add filters" in
  if negb modify then Ok df
  else
    let df := normalize env df in
    let to_filter_columns :=
      st_multiselect_columns ui "Filter data on" (columns df) in
    filter_columns env ui df to_filter_columns.

End Filter.

(** ** uuid.UUID(hex=...) and str(UUID), after CPython's uuid.py *)

Module Uuid.

Open Scope Z_scope.

Definition hex_value (c : ascii) : option Z :=
  let n := Z.of_nat (nat_of_ascii c) in
  if (48 <=? n) && (n <=? 57) then Some (n - 48)
  else if (97 <=? n) && (n <=? 102) then Some (n - 87)
  else if (65 <=? n) && (n <=? 70) then Some (n - 55)
  else None.

(** White space as [int()] skips it around an ASCII literal: tab, line
    feed, vertical tab, form feed, carriage return and space.  (The
    separators 28 to 31 are skipped only in a text that also holds a
    character beyond ASCII, which a [string] of this model does not.) *)
Definition is_space (c : ascii) : bool :=
  let n := Z.of_nat (nat_of_ascii c) in
  ((9 <=? n) && (n <=? 13)) || (n =? 32).

Fixpoint lstrip_space (s : string) : string :=
  match s with
  | EmptyString => EmptyString
  | String c s' => if is_space c then lstrip_space s' else s
  end.

Definition strip_space (s : string) : string :=
  Py.rev_string (lstrip_space (Py.rev_string (lstrip_space s))).

(** The digits of an integer literal: single underscores may separate
    digits, none may end the literal, and there is at least one digit. *)
Fixpoint digits16 (acc : Z) (prev_underscore seen : bool) (s : string)
  : option Z :=
  match s with
  | EmptyString => if prev_underscore || negb seen then None else Some acc
  | String c r =>
      if Ascii.eqb c "_" then
        if prev_underscore then None else digits16 acc true seen r
      else
        match hex_value c with
        | Some d => digits16 (acc * 16 + d) false true r
        | None => None
        end
  end.

(** [int(s, 16)] on ASCII text; [None] is ValueError.  An optional sign,
    an optional 0x prefix that one underscore may follow, then the digits. *)
Definition int16 (s : string) : option Z :=
  let s := strip_space s in
  let '(negative, s) :=
    match s with
    | String "+" r => (false, r)
    | String "-" r => (true, r)
    | _ => (false, s)
    end in
  let s :=
    match s with
    | String "0" (String x r) =>
        if Ascii.eqb x "x" || Ascii.eqb x "X" then
          match r with String "_" r' => r' | _ => r end
        else s
    | _ => s
    end in
  match s with
  | String "_" _ => None
  | _ =>
      match digits16 0 false false s with
      | Some v => Some (if negative then - v else v)
      | None => None
      end
  end.

Record UUID : Type := { int : Z }.

(** [UUID(hex=text)] *)
Definition of_hex (text : string) : result UUID :=
  let hex := Py.remove_all "uuid:" (Py.remove_all "urn:" text) in
  let hex := Py.remove_all "-" (Py.strip "{}" hex) in
  if negb (Nat.eqb (String.length hex) 32) then
    Raise (ValueError "badly formed hexadecimal UUID string")
  else
    match int16 hex with
    | None => Raise (ValueError "invalid literal for int() with base 16")
    | Some i =>
        if (0 <=? i) && (i <? 2 ^ 128) then Ok {| int := i |}
        else Raise (ValueError "int is out-of-range (need a 128-bit value)")
    end.

Definition hex_char (d : Z) : ascii :=
  if d <? 10 then ascii_of_nat (Z.to_nat (d + 48))
  else ascii_of_nat (Z.to_nat (d + 87)).

(** ['%032x' % v] for [0 <= v < 2**128]: [n] lowercase digits. *)
Fixpoint hex_digits (n : nat) (v : Z) : string :=
  match n with
  | O => EmptyString
  | S k => String (hex_char ((v / 16 ^ Z.of_nat k) mod 16)) (hex_digits k v)
  end.

(** [str(u)]: the 8-4-4-4-12 form. *)
Definition str (u : UUID) : string :=
  let hex := hex_digits 32 (int u) in
  Py.fstring [substring 0 8 hex; "-"; substring 8 4 hex; "-";
              substring 12 4 hex; "-"; substring 16 4 hex; "-";
              substring 20 12 hex].

End Uuid.

(** ** The pinger tab *)

Module Tab1.

Inductive event : Type :=
| StWrite (text value : string)
| Query (device_uuid : string)   (* the session.table(...).to_pandas() call *)
| LineChart (data : DataFrame) (x : string) (y : list string)
| StDataframe (data : DataFrame)
| StError (msg : string).

Definition invalid_uuid_message : string :=
  "The entered UUID is invalid. Please check the format and try again.".

(** The body of the [try]: what was rendered, and how the body ended. *)
Definition try_body (env : Env) (ui : UI) (device_UUID : string)
  : list event * result unit :=
  match Uuid.of_hex device_UUID with
  | Raise e => ([], Raise e)
  | Ok device_UUID_formatted =>
      let shown :=
        [StWrite "You are looking for the test triggered by"
                 (Uuid.str device_UUID_formatted);
         Query (Uuid.str device_UUID_formatted)] in
      match snowflake_query env (Uuid.str device_UUID_formatted) with
      | Raise e => (shown, Raise e)
      | Ok speed_results_dataframe =>
          match Filter.filter_dataframe env ui speed_results_dataframe with
          | Raise e => (shown, Raise e)
          | Ok filtered_dataframe =>
              ((shown ++
                [LineChart filtered_dataframe "END_DATE"
                           ["AVG_UPLOAD_SPEED"; "AVG_DOWNLOAD_SPEED"];
                 StDataframe filtered_dataframe])%list, Ok tt)
          end
      end
  end.

(** The tab: what it renders, and the exception that leaves it, if any. *)
Definition tab1 (env : Env) (ui : UI) : list event * option exn :=
  let device_UUID := st_text_input ui "Please enter the device UUID" in
  if Py.truthy device_UUID then
    match try_body env ui device_UUID with
    | (shown, Ok _) => (shown, None)
    | (shown, Raise e) =>
        if is_ValueError e then
          ((shown ++ [StError invalid_uuid_message])%list, None)
        else (shown, Some e)
    end
  else ([], None).

Definition is_query (e : event) : bool :=
  match e with Query _ => true | _ => false end.

End Tab1.

(** ** Viewers *)

Module Viewer.
Import Frame Filter.

(** The Filter Spec of one column: what the viewer enters in its widget. *)
Inductive filter_spec : Type :=
| SpecCategorical (allowed : list cell)
| SpecNumerical (lo hi : float)
| SpecTemporal (picked : list date)
| SpecTextual (pattern : string).

Definition spec_kind (s : filter_spec) : kind :=
  match s with
  | SpecCategorical _ => Categorical
  | SpecNumerical _ _ => Numerical
  | SpecTemporal _ => Temporal
  | SpecTextual _ => Textual
  end.

Fixpoint drop (n : nat) (s : string) : string :=
  match n, s with
  | S k, String _ s' => drop k s'
  | _, _ => s
  end.

(** The column a filter widget belongs to, read off its label. *)
Definition label_column (label : string) : string :=
  if Py.is_prefix "Values for " label then drop 11 label
  else if Py.is_prefix "Substring or regex in " label then drop 22 label
  else label.

(** What [st.date_input] shows before the viewer touches it: the dates of
    the two timestamps it was given. *)
Definition default_dates (value : cell * cell) : list date :=
  match value with
  | (CTime lo, CTime hi) => [date_of lo; date_of hi]
  | _ => []
  end.

(** A viewer who ticks "Add filters", selects the columns [selected] in
    that order, and enters in each column's widget the Filter Spec [specs]
    gives for the column; a widget of another kind than the spec is left
    as it shows up. *)
Definition spec_ui (selected : list string) (specs : string -> filter_spec)
  : UI :=
  {| st_checkbox := fun _ => true;
     st_text_input := fun label =>
       match specs (label_column label) with
       | SpecTextual pattern => pattern
       | _ => ""
       end;
     st_selectbox := fun _ options => hd "" options;
     st_button := fun _ => false;
     st_multiselect_columns := fun _ _ => selected;
     st_multiselect := fun label _ default =>
       match specs (label_column label) with
       | SpecCategorical allowed => allowed
       | _ => default
       end;
     st_slider := fun label _ _ value _ =>
       match specs (label_column label) with
       | SpecNumerical lo hi => (lo, hi)
       | _ => value
       end;
     st_date_input := fun label value =>
       match specs (label_column label) with
       | SpecTemporal picked => picked
       | _ => default_dates value
       end |}.

(** Every filter widget is left as it shows up. *)
Definition leaves_defaults (ui : UI) : Prop :=
  (forall label options default,
      st_multiselect ui label options default = default) /\
  (forall label lo hi value step,
      st_slider ui label lo hi value step = value) /\
  (forall label value, st_date_input ui label value = default_dates value) /\
  (forall name,
      st_text_input ui (Py.fstring ["Substring or regex in "; name]) = "").

(** A viewer who ticks "Add filters", selects [selected] and touches no
    filter widget. *)
Definition default_ui (selected : list string) : UI :=
  {| st_checkbox := fun _ => true;
     st_text_input := fun _ => "";
     st_selectbox := fun _ options => hd "" options;
     st_button := fun _ => false;
     st_multiselect_columns := fun _ _ => selected;
     st_multiselect := fun _ _ default => default;
     st_slider := fun _ _ _ value _ => value;
     st_date_input := fun _ value => default_dates value |}.

Definition is_number (x : cell) : bool :=
  match x with CNum _ => true | _ => false end.

(** A float64 of ordinary magnitude: zero, or m * 2^e with an odd m below
    2^53, e at least -1000 and the whole below 2^1000.  [float] leaves
    such a number as it is (every int64 of at most 53 bits is one), two of
    them that differ are at least 2^-1000 apart, and neither their
    difference nor a hundredth of it overflows or rounds to zero. *)
Definition ordinary_float (q : Q) : bool :=
  let r := Qred q in
  let n := Z.abs (Qnum r) in
  let d := Zpos (Qden r) in
  if Z.eqb n 0 then true
  else
    let k := Z.log2 d in                       (* d = 2^k, when a power of 2 *)
    let j := Z.log2 (Z.land n (- n)) in        (* 2^j is the lowest bit of n *)
    let m := Z.shiftr n j in
    Z.eqb d (2 ^ k) && Z.ltb m (2 ^ 53)
    && Z.leb (- 1000) (j - k) && Z.leb (Z.log2 m + 1 + (j - k)) 1000.

Definition ordinary_number (x : cell) : bool :=
  match x with CNum q => ordinary_float q | _ => false end.

(** The columns whose untouched widget is shown below to filter nothing,
    and is given arguments Streamlit accepts: textual ones, categorical
    ones without a missing value (the multiselect looks its default up
    among the options by equality, and a missing value equals nothing),
    and numeric ones that hold float64 numbers of ordinary magnitude and no
    missing value (so that the slider is given its ends as they are in the
    column, and a step that is not zero). *)
Definition plain_column (c : column) : bool :=
  match column_kind c with
  | Categorical => forallb notna (col_values c)
  | Textual => true
  | Numerical => forallb ordinary_number (col_values c)
  | Temporal => false
  end.

(** IEEE [<=] on floats: false when either side is nan. *)
Definition float_le (a b : float) : Prop :=
  match a, b with
  | Some p, Some q => (p <= q)%Q
  | _, _ => False
  end.

(** The kind of the column [name] of a frame. *)
Definition kind_in (df : DataFrame) (name : string) : option kind :=
  option_map column_kind (get_column df name).

(** The test a Filter Spec puts on a cell of its column: [None] when the
    widget's answer leaves the frame alone (no pattern typed, a date range
    not completed); re.error when the pattern does not compile. *)
Definition row_predicate (env : Env) (s : filter_spec)
  : result (option (cell -> bool)) :=
  match s with
  | SpecCategorical allowed => Ok (Some (isin allowed))
  | SpecNumerical lo hi => Ok (Some (between lo hi))
  | SpecTemporal [d1; d2] =>
      Ok (Some (between_time (to_datetime_date d1) (to_datetime_date d2)))
  | SpecTemporal _ => Ok None
  | SpecTextual pattern =>
      if Py.truthy pattern then
        match re_compile env pattern with
        | None => Raise ReError
        | Some search => Ok (Some (fun x => search (cell_str env x)))
        end
      else Ok None
  end.

Definition mask_of (p : option (cell -> bool)) (values : list cell)
  : list bool :=
  map (match p with Some f => f | None => fun _ => true end) values.

Definition apply_filter (p : option (cell -> bool)) (values : list cell)
  (df : DataFrame) : DataFrame :=
  match p with
  | Some f => mask_df (map f values) df
  | None => df
  end.

(** The rows of [a] whose index label is also in [b]. *)
Definition intersection (a b : DataFrame) : DataFrame :=
  mask_df (map (fun i => existsb (Z.eqb i) (df_index b)) (df_index a)) a.

End Viewer.

(** ** Notions the further properties are stated with *)

Module Notions.
Import Frame Filter.

(** The mask [m2], read on the rows [m1] kept, as a mask on all rows. *)
Fixpoint mask_then (m1 m2 : list bool) : list bool :=
  match m1 with
  | [] => []
  | true :: m1' =>
      match m2 with
      | b :: m2' => b :: mask_then m1' m2'
      | [] => []
      end
  | false :: m1' => false :: mask_then m1' m2
  end.

(** A mask that holds, long enough for the index and every column. *)
Definition keep_all (df : DataFrame) : list bool :=
  repeat true
    (List.length (df_index df)
     + list_sum (map (fun c => List.length (col_values c)) (df_columns df))).

(** No timezone on the column. *)
Definition naive (c : column) : bool :=
  match col_dtype c with
  | Datetime64 (Some _) => false
  | _ => true
  end.

(** The cells a numeric column holds: numbers and nan. *)
Definition numeric_cells (l : list cell) : bool :=
  forallb (fun x => match x with CNum _ | CNaN => true | _ => false end) l.

(** The cells of a float64 column of ordinary magnitude, and of an int64
    column of at most 53 bits. *)
Definition float64_cells (l : list cell) : bool :=
  forallb (fun x => match x with
                    | CNum q => Viewer.ordinary_float q
                    | CNaN => true
                    | _ => false
                    end) l.

(** The days whose midnight a nanosecond timestamp reaches: 1677-09-22 to
    2262-04-11, the days [pd.to_datetime] takes. *)
Definition timestamp_day (d : date) : bool :=
  (Z.leb (- 106751) d && Z.leb d 106751)%Z.

(** [pd.to_datetime] returns as many values as it was given. *)
Definition keeps_length (env : Env) : Prop :=
  forall l tz parsed,
    pd_to_datetime env l = Some (tz, parsed) ->
    List.length parsed = List.length l.

(** The date range [d1, d2] as the temporal branch reads it: the days from
    [d1] up to but not including [d2], and midnight of [d2]. *)
Definition in_date_range (d1 d2 : date) (x : cell) : bool :=
  match x with
  | CTime t =>
      Z.leb d1 (date_of t)
      && (Z.ltb (date_of t) d2 || Z.eqb t (to_datetime_date d2))
  | _ => false
  end.

(** A test on cells that does not tell equal cells apart. *)
Definition respects (P : cell -> bool) : Prop :=
  forall x y, cell_eqb x y = true -> P x = P y.

Fixpoint all_chars (p : ascii -> bool) (s : string) : bool :=
  match s with
  | EmptyString => true
  | String c s' => p c && all_chars p s'
  end.

Definition no_semicolon (s : string) : bool :=
  all_chars (fun c => negb (Ascii.eqb c ";")) s.

Definition hex_lower (c : ascii) : bool :=
  Py.in_chars c "0123456789abcdef".

(** The characters of the 8-4-4-4-12 form. *)
Definition canonical_char (c : ascii) : bool :=
  Py.in_chars c "0123456789abcdef-".

(** What the pinger tab renders for an accepted identifier before the
    result of the query is known. *)
Definition shown_identifier (u : Uuid.UUID) : list Tab1.event :=
  [Tab1.StWrite "You are looking for the test triggered by" (Uuid.str u);
   Tab1.Query (Uuid.str u)].

End Notions.

(** ** An environment to run the script in

    The theorems hold for every [Env]; this one serves to evaluate the
    script on concrete frames.  It covers a fragment of each routine:
    patterns built from ordinary characters, [.], [|], [*], [+], [?],
    parentheses and escaped punctuation (anything else is answered by
    [None] and is not meant to be read as Python's verdict), and columns of
    YYYY-MM-DD dates. *)

Module Example.

Inductive regex : Type :=
| Void
| Eps
| Sym (p : ascii -> bool)
| Cat (r s : regex)
| Alt (r s : regex)
| Star (r : regex).

Fixpoint nullable (r : regex) : bool :=
  match r with
  | Void => false
  | Eps => true
  | Sym _ => false
  | Cat r s => nullable r && nullable s
  | Alt r s => nullable r || nullable s
  | Star _ => true
  end.

(** The Brzozowski derivative. *)
Fixpoint deriv (c : ascii) (r : regex) : regex :=
  match r with
  | Void => Void
  | Eps => Void
  | Sym p => if p c then Eps else Void
  | Cat r s =>
      if nullable r then Alt (Cat (deriv c r) s) (deriv c s)
      else Cat (deriv c r) s
  | Alt r s => Alt (deriv c r) (deriv c s)
  | Star r => Cat (deriv c r) (Star r)
  end.

Fixpoint fullmatch (r : regex) (s : string) : bool :=
  match s with
  | EmptyString => nullable r
  | String c s' => fullmatch (deriv c r) s'
  end.

Definition anything : regex := Star (Sym (fun _ => true)).

(** [pattern.search(s) is not None] *)
Definition search (r : regex) (s : string) : bool :=
  fullmatch (Cat anything (Cat r anything)) s.

Definition is_alnum (c : ascii) : bool :=
  let n := nat_of_ascii c in
  ((48 <=? n) && (n <=? 57) || (65 <=? n) && (n <=? 90)
   || (97 <=? n) && (n <=? 122))%nat.

Definition is_quantifier (c : ascii) : bool :=
  Ascii.eqb c "*" || Ascii.eqb c "+" || Ascii.eqb c "?".

(** Zero or one quantifier after an atom, with its lazy mark; a second
    quantifier is "multiple repeat". *)
Definition quantified (r : regex) (s : string) : option (regex * string) :=
  match s with
  | String q s' =>
      if is_quantifier q then
        let r' := if Ascii.eqb q "*" then Star r
                  else if Ascii.eqb q "+" then Cat r (Star r)
                  else Alt r Eps in
        match s' with
        | String q2 s'' =>
            if Ascii.eqb q2 "?" then
              match s'' with
              | String q3 _ =>
                  if is_quantifier q3 then None else Some (r', s'')
              | EmptyString => Some (r', s'')
              end
            else if is_quantifier q2 then None
            else Some (r', s')
        | EmptyString => Some (r', s')
        end
      else Some (r, s)
  | EmptyString => Some (r, s)
  end.

Fixpoint parse_alt (fuel : nat) (s : string) : option (regex * string) :=
  match fuel with
  | O => None
  | S f =>
      match parse_seq f s with
      | Some (r, String "|" s') =>
          match parse_alt f s' with
          | Some (r', rest) => Some (Alt r r', rest)
          | None => None
          end
      | other => other
      end
  end
with parse_seq (fuel : nat) (s : string) : option (regex * string) :=
  match fuel with
  | O => None
  | S f =>
      match s with
      | EmptyString => Some (Eps, s)
      | String "|" _ => Some (Eps, s)
      | String ")" _ => Some (Eps, s)
      | _ =>
          match parse_atom f s with
          | Some (r, s') =>
              match quantified r s' with
              | Some (r', s'') =>
                  match parse_seq f s'' with
                  | Some (r'', rest) => Some (Cat r' r'', rest)
                  | None => None
                  end
              | None => None
              end
          | None => None
          end
      end
  end
with parse_atom (fuel : nat) (s : string) : option (regex * string) :=
  match fuel with
  | O => None
  | S f =>
      match s with
      | EmptyString => None
      | String "(" s' =>
          match parse_alt f s' with
          | Some (r, String ")" rest) => Some (r, rest)
          | _ => None                    (* missing ) *)
          end
      | String "." s' =>
          Some (Sym (fun c => negb (Ascii.eqb c "010")), s')
      | String "\" (String c s') =>
          if is_alnum c then None else Some (Sym (Ascii.eqb c), s')
      | String "\" EmptyString => None   (* bad escape *)
      | String c s' =>
          if is_quantifier c then None   (* nothing to repeat *)
          else if Ascii.eqb c "[" || Ascii.eqb c "{" || Ascii.eqb c "^"
                  || Ascii.eqb c "$"
          then None
          else Some (Sym (Ascii.eqb c), s')
      end
  end.

Definition compile (pattern : string) : option (string -> bool) :=
  match parse_alt (4 * String.length pattern + 4) pattern with
  | Some (r, EmptyString) => Some (search r)
  | _ => None                            (* unbalanced parenthesis *)
  end.

Open Scope Z_scope.

Definition digit (c : ascii) : option Z :=
  let n := Z.of_nat (nat_of_ascii c) in
  if (48 <=? n) && (n <=? 57) then Some (n - 48) else None.

Fixpoint number (acc : Z) (s : string) : option Z :=
  match s with
  | EmptyString => Some acc
  | String c r =>
      match digit c with
      | Some d => number (acc * 10 + d) r
      | None => None
      end
  end.

Definition is_leap (y : Z) : bool :=
  ((y mod 4 =? 0) && negb (y mod 100 =? 0)) || (y mod 400 =? 0).

Definition days_in_month (y m : Z) : Z :=
  if m =? 2 then (if is_leap y then 29 else 28)
  else if (m =? 4) || (m =? 6) || (m =? 9) || (m =? 11) then 30
  else 31.

(** Days from 1970-01-01 to the civil date y-m-d. *)
Definition days_from_civil (y m d : Z) : Z :=
  let y' := if m <=? 2 then y - 1 else y in
  let era := y' / 400 in
  let yoe := y' - era * 400 in
  let doy := (153 * (if 2 <? m then m - 3 else m + 9) + 2) / 5 + d - 1 in
  let doe := yoe * 365 + yoe / 4 - yoe / 100 + doy in
  era * 146097 + doe - 719468.

Definition parse_date (s : string) : option Z :=
  if negb (Nat.eqb (String.length s) 10) then None
  else if negb (Ascii.eqb (match get 4 s with Some c => c | None => " " end) "-"
                && Ascii.eqb (match get 7 s with Some c => c | None => " " end) "-")
  then None
  else
    match number 0 (substring 0 4 s), number 0 (substring 5 2 s),
          number 0 (substring 8 2 s) with
    | Some y, Some m, Some d =>
        if (1 <=? m) && (m <=? 12) && (1 <=? d) && (d <=? days_in_month y m)
        then Some (days_from_civil y m d * ns_per_day)
        else None
    | _, _, _ => None
    end.

Fixpoint parse_dates (l : list cell) : option (list cell) :=
  match l with
  | [] => Some []
  | x :: r =>
      match
        match x with
        | CStr s => option_map CTime (parse_date s)
        | CNone | CNaN | CNaT => Some CNaT
        | _ => None
        end, parse_dates r
      with
      | Some t, Some ts => Some (t :: ts)
      | _, _ => None
      end
  end.

Definition to_datetime (l : list cell) : option (option tzinfo * list cell) :=
  option_map (fun ts => (None, ts)) (parse_dates l).

Fixpoint decimal_pos (fuel : nat) (n : Z) (acc : string) : string :=
  match fuel with
  | O => acc
  | S f =>
      let acc' := String (ascii_of_nat (Z.to_nat (n mod 10 + 48))) acc in
      if n <? 10 then acc' else decimal_pos f (n / 10) acc'
  end.

Definition decimal (n : Z) : string :=
  if n <? 0 then String "-" (decimal_pos (Z.to_nat (Z.log2 (- n) + 1)) (- n) "")
  else decimal_pos (Z.to_nat (Z.log2 n + 1)) n "".

(** A number is shown the way Python shows a Fraction. *)
Definition show_num (q : Q) : string :=
  let r := Qred q in
  if Pos.eqb (Qden r) 1 then decimal (Qnum r)
  else (decimal (Qnum r) ++ "/" ++ decimal (Zpos (Qden r)))%string.

(** A timestamp is shown as its count of nanoseconds. *)
Definition show_time (t : Z) : string := decimal t.

Definition env (table : DataFrame) : Env :=
  {| pd_to_datetime := to_datetime;
     re_compile := compile;
     str_num := show_num;
     str_time := show_time;
     snowflake_query := fun _ => Ok table |}.

End Example.

(** ** Frames and viewers the statements are run on *)

Module Sample.
Import Frame Filter Viewer.

Definition num_column (name : string) (l : list Z) : column :=
  {| col_name := name; col_dtype := Numeric;
     col_values := map (fun z => CNum (inject_Z z)) l |}.

Definition range_index (n : nat) : list Z := map Z.of_nat (seq 0 n).

(** 9 and 10 distinct numbers. *)
Definition nine : column := num_column "AVG_PING" [1; 2; 3; 4; 5; 6; 7; 8; 9; 9]%Z.
Definition ten : column := num_column "AVG_PING" [1; 2; 3; 4; 5; 6; 7; 8; 9; 10]%Z.

Definition pings : DataFrame :=
  {| df_index := range_index 10; df_columns := [ten] |}.

Definition day_column : column :=
  {| col_name := "DAY"; col_dtype := Object;
     col_values := [CStr "2024-01-01"; CStr "2024-01-02"; CNone] |}.

Definition word_column : column :=
  {| col_name := "NOTE"; col_dtype := Object;
     col_values := [CStr "2024-01-01"; CStr "tomorrow"; CNone] |}.

(** A viewer who leaves "Add filters" unticked. *)
Definition idle_ui : UI :=
  {| st_checkbox := fun _ => false;
     st_text_input := fun _ => "not-a-uuid";
     st_selectbox := fun _ _ => "OPEN";
     st_button := fun _ => true;
     st_multiselect_columns := fun _ options => options;
     st_multiselect := fun _ _ _ => [];
     st_slider := fun _ _ _ _ _ => (None, None);
     st_date_input := fun _ _ => [] |}.

(** A viewer of the generator tab who typed a password, then chose OPEN. *)
Definition open_ui : UI :=
  {| st_checkbox := fun _ => false;
     st_text_input := fun label =>
       if String.eqb label "Password" then "hunter2" else "MyNet";
     st_selectbox := fun _ _ => "OPEN";
     st_button := fun _ => true;
     st_multiselect_columns := fun _ _ => [];
     st_multiselect := fun _ _ default => default;
     st_slider := fun _ _ _ value _ => value;
     st_date_input := fun _ _ => [] |}.

(** Ten device notes, all different, none a date. *)
Definition notes : DataFrame :=
  {| df_index := range_index 10;
     df_columns :=
       [{| col_name := "NOTE"; col_dtype := Object;
           col_values := map CStr ["attic"; "barn"; "cellar"; "den"; "(east)";
                                   "foyer"; "garage"; "hall"; "inn"; "jetty"] |}]
  |}.

(** A viewer of the pinger tab who entered a device UUID, ticked
    "Add filters" on NOTE and typed an opening parenthesis. *)
Definition paren_ui : UI :=
  {| st_checkbox := fun _ => true;
     st_text_input := fun label =>
       if String.eqb label "Please enter the device UUID"
       then "123e4567-e89b-12d3-a456-426614174000"
       else "(";
     st_selectbox := fun _ options => hd "" options;
     st_button := fun _ => false;
     st_multiselect_columns := fun _ _ => ["NOTE"];
     st_multiselect := fun _ _ default => default;
     st_slider := fun _ _ _ value _ => value;
     st_date_input := fun _ value => default_dates value |}.

Definition noon (day : Z) : Z := (day * ns_per_day + 43200000000000)%Z.

(** Ten speed tests, one a day at noon, 2024-01-01 to 2024-01-10. *)
Definition speed_tests : DataFrame :=
  {| df_index := range_index 10;
     df_columns :=
       [{| col_name := "END_DATE"; col_dtype := Datetime64 None;
           col_values := map (fun d => CTime (noon d))
                             [19723; 19724; 19725; 19726; 19727;
                              19728; 19729; 19730; 19731; 19732]%Z |};
        num_column "AVG_PING" [31; 32; 33; 34; 35; 36; 37; 38; 39; 40]%Z]
  |}.

(** The same tests stamped in UTC+01:00. *)
Definition paris : tzinfo := {| utcoffset := fun _ => 3600000000000%Z |}.

Definition zoned_tests : DataFrame :=
  {| df_index := range_index 2;
     df_columns :=
       [{| col_name := "END_DATE"; col_dtype := Datetime64 (Some paris);
           col_values := [CTime (noon 19723); CTime (noon 19724)] |}]
  |}.

(** Eleven pings, one of them missing. *)
Definition gappy : DataFrame :=
  {| df_index := range_index 11;
     df_columns :=
       [{| col_name := "AVG_PING"; col_dtype := Numeric;
           col_values := CNaN :: map (fun z => CNum (inject_Z z))
                                     [1; 2; 3; 4; 5; 6; 7; 8; 9; 10]%Z |}]
  |}.

(** Ten pings, the last one alone with a retry. *)
Definition retried : DataFrame :=
  {| df_index := range_index 10;
     df_columns :=
       [num_column "AVG_PING" [1; 2; 3; 4; 5; 6; 7; 8; 9; 10]%Z;
        num_column "RETRIES" [0; 0; 0; 0; 0; 0; 0; 0; 0; 1]%Z] |}.

(** Pings from 1 to 5 (as an interval, or as a set of values), and no
    retry. *)
Definition interval_specs (name : string) : filter_spec :=
  if String.eqb name "AVG_PING"
  then SpecNumerical (Some (1 # 1)) (Some (5 # 1))
  else SpecCategorical [CNum 0].

Definition set_specs (name : string) : filter_spec :=
  if String.eqb name "AVG_PING"
  then SpecCategorical (map (fun z => CNum (inject_Z z)) [1; 2; 3; 4; 5]%Z)
  else SpecCategorical [CNum 0].

(** Twenty-two pings by two probes, the second probe taking the last two. *)
Definition probes : DataFrame :=
  {| df_index := range_index 22;
     df_columns :=
       [num_column "AVG_PING" (map Z.of_nat (seq 1 22));
        {| col_name := "PROBE"; col_dtype := Category;
           col_values := repeat (CStr "north") 20 ++ repeat (CStr "south") 2 |}]
  |}.

(** Ten pings, the last one alone from the second probe; the viewer wants
    the pings 1, 3 and 5 of the first probe. *)
Definition outpost : DataFrame :=
  {| df_index := range_index 10;
     df_columns :=
       [num_column "AVG_PING" [1; 2; 3; 4; 5; 6; 7; 8; 9; 10]%Z;
        {| col_name := "PROBE"; col_dtype := Category;
           col_values := repeat (CStr "north") 9 ++ [CStr "south"] |}] |}.

Definition odd_specs (name : string) : filter_spec :=
  if String.eqb name "AVG_PING"
  then SpecCategorical (map (fun z => CNum (inject_Z z)) [1; 3; 5]%Z)
  else SpecCategorical [CStr "north"].

Definition odd_pings : DataFrame :=
  {| df_index := [0; 2; 4]%Z;
     df_columns :=
       [num_column "AVG_PING" [1; 3; 5]%Z;
        {| col_name := "PROBE"; col_dtype := Category;
           col_values := repeat (CStr "north") 3 |}] |}.

(** The result of a query that found no test. *)
Definition no_tests : DataFrame :=
  {| df_index := [];
     df_columns :=
       [{| col_name := "END_DATE"; col_dtype := Datetime64 None;
           col_values := [] |};
        {| col_name := "AVG_PING"; col_dtype := Numeric; col_values := [] |}]
  |}.

(** What the query of the pinger tab returns: ten tests, latest first. *)
Definition results : DataFrame :=
  {| df_index := range_index 10;
     df_columns :=
       [{| col_name := "END_DATE"; col_dtype := Datetime64 None;
           col_values := map (fun d => CTime (noon d))
                             [19732; 19731; 19730; 19729; 19728;
                              19727; 19726; 19725; 19724; 19723]%Z |};
        num_column "AVG_UPLOAD_SPEED"
                   [11; 12; 13; 14; 15; 16; 17; 18; 19; 20]%Z;
        num_column "AVG_DOWNLOAD_SPEED"
                   [51; 52; 53; 54; 55; 56; 57; 58; 59; 60]%Z;
        num_column "AVG_PING" [31; 32; 33; 34; 35; 36; 37; 38; 39; 40]%Z]
  |}.

(** A viewer of the pinger tab who entered a device UUID in capitals and
    braces, ticked "Add filters" on AVG_PING and left the slider alone. *)
Definition pinger_ui : UI :=
  {| st_checkbox := fun _ => true;
     st_text_input := fun label =>
       if String.eqb label "Please enter the device UUID"
       then "{123E4567-E89B-12D3-A456-426614174000}"
       else "";
     st_selectbox := fun _ options => hd "" options;
     st_button := fun _ => false;
     st_multiselect_columns := fun _ _ => ["AVG_PING"];
     st_multiselect := fun _ _ default => default;
     st_slider := fun _ _ _ value _ => value;
     st_date_input := fun _ value => default_dates value |}.

Definition probe_specs (name : string) : filter_spec :=
  if String.eqb name "AVG_PING"
  then SpecNumerical (Some (3 # 1)) (Some (22 # 1))
  else SpecCategorical [CStr "north"].

End Sample.

(** * Properties *)

Import Frame Filter Viewer.

(** ** Strings *)

Lemma append_assoc (a b c : string) : (a ++ b) ++ c = a ++ (b ++ c).
Proof. induction a as [| x a IH]; simpl; [reflexivity | now rewrite IH]. Qed.

(** ** The credential encoder *)

(** C8: for all inputs the payload handed to the barcode generator is
    WIFI:T:<auth>;S:<ssid>;P:<password>;H:<true|false>;; with H the
    lowercase literal, and the MyNet/OPEN example gives the stated
    string. *)
Theorem wifi_string_grammar :
  forall ssid authentication password hidden,
    Wifi.qr_data (Wifi.generate_wifi_qr ssid authentication password hidden)
    = "WIFI:T:" ++ authentication ++ ";S:" ++ ssid ++ ";P:" ++ password
      ++ ";H:" ++ (if hidden then "true" else "false") ++ ";;"
    /\ Wifi.wifi_string "MyNet" "OPEN" "" false
       = "WIFI:T:OPEN;S:MyNet;P:;H:false;;".
Proof.
  intros. split; [| reflexivity].
  unfold Wifi.generate_wifi_qr, Wifi.wifi_string, Py.fstring. simpl.
  reflexivity.
Qed.

(** C10: when the selected authentication kind is OPEN the password given
    to the encoder is the empty string whatever the password field holds,
    the button then generates the code for any non-empty SSID, and every
    generated payload contains the field P:; *)
Theorem open_network_has_empty_password :
  forall ui,
    Wifi.tab2_authentication ui = "OPEN" ->
    Wifi.tab2_password ui = ""
    /\ (st_button ui "Generate QR Code" = true ->
        Wifi.tab2_ssid ui <> "" ->
        Wifi.tab2 ui
        = Wifi.QrCode (Wifi.generate_wifi_qr (Wifi.tab2_ssid ui) "OPEN" ""
                                             (Wifi.tab2_hidden ui)))
    /\ (forall img,
          Wifi.tab2 ui = Wifi.QrCode img ->
          exists before after,
            Wifi.qr_data img = before ++ "P:;" ++ after).
Proof.
  intros ui Hauth.
  assert (Hpw : Wifi.tab2_password ui = "").
  { unfold Wifi.tab2_password. rewrite Hauth. reflexivity. }
  split; [exact Hpw |]. split.
  - intros Hbutton Hssid. unfold Wifi.tab2.
    rewrite Hbutton, Hpw, Hauth.
    destruct (Wifi.tab2_ssid ui) as [| c s]; [congruence |]. reflexivity.
  - intros img Himg. unfold Wifi.tab2 in Himg.
    rewrite Hpw, Hauth in Himg.
    destruct (st_button ui "Generate QR Code"); [| discriminate].
    destruct (Wifi.tab2_ssid ui) as [| c s] eqn:Hssid; [discriminate |].
    simpl in Himg. injection Himg as <-.
    exists ("WIFI:T:OPEN;S:" ++ String c s ++ ";"),
           ("H:" ++ (if Wifi.tab2_hidden ui then "true" else "false") ++ ";;").
    unfold Wifi.generate_wifi_qr, Wifi.wifi_string, Py.fstring. simpl.
    repeat rewrite append_assoc. reflexivity.
Qed.

Lemma open_network_has_empty_password_witness :
  Wifi.tab2_password Sample.open_ui = ""
  /\ Wifi.tab2 Sample.open_ui
     = Wifi.QrCode (Wifi.generate_wifi_qr "MyNet" "OPEN" "" false).
Proof.
  destruct (open_network_has_empty_password Sample.open_ui eq_refl)
    as [Hpw [Hgen _]].
  split; [exact Hpw |].
  apply Hgen; [reflexivity | discriminate].
Defined.

(** ** The identifier gate of the pinger tab *)

Lemma of_hex_raises_ValueError (text : string) (e : exn) :
  Uuid.of_hex text = Raise e -> is_ValueError e = true.
Proof.
  unfold Uuid.of_hex.
  destruct (negb _); [intros [= <-]; reflexivity |].
  destruct (Uuid.int16 _) as [i |]; [| intros [= <-]; reflexivity].
  destruct (_ && _); [discriminate | intros [= <-]; reflexivity].
Qed.

(** C9: "not-a-uuid" is rejected with a ValueError; whenever the entered
    text is rejected the tab renders the error message and nothing else, so
    no query is issued; the well-formed example parses to an identifier
    whose string form is the text itself. *)
Theorem uuid_gate :
  forall env ui,
    (exists msg, Uuid.of_hex "not-a-uuid" = Raise (ValueError msg))
    /\ (forall e,
          Py.truthy (st_text_input ui "Please enter the device UUID") = true ->
          Uuid.of_hex (st_text_input ui "Please enter the device UUID")
          = Raise e ->
          Tab1.tab1 env ui = ([Tab1.StError Tab1.invalid_uuid_message], None)
          /\ existsb Tab1.is_query (fst (Tab1.tab1 env ui)) = false)
    /\ (exists u,
          Uuid.of_hex "123e4567-e89b-12d3-a456-426614174000" = Ok u
          /\ Uuid.str u = "123e4567-e89b-12d3-a456-426614174000").
Proof.
  intros env ui. split; [| split].
  - eexists. vm_compute. reflexivity.
  - intros e Htruthy Hraise.
    assert (Htab : Tab1.tab1 env ui
                   = ([Tab1.StError Tab1.invalid_uuid_message], None)).
    { unfold Tab1.tab1. rewrite Htruthy. unfold Tab1.try_body.
      rewrite Hraise. rewrite (of_hex_raises_ValueError _ _ Hraise).
      reflexivity. }
    split; [exact Htab | rewrite Htab; reflexivity].
  - eexists. split; [vm_compute; reflexivity |]. vm_compute. reflexivity.
Qed.

Lemma uuid_gate_witness :
  Tab1.tab1 (Example.env Sample.pings) Sample.idle_ui
  = ([Tab1.StError Tab1.invalid_uuid_message], None).
Proof.
  destruct (uuid_gate (Example.env Sample.pings) Sample.idle_ui)
    as [_ [Hreject _]].
  apply (Hreject (ValueError "badly formed hexadecimal UUID string"));
    reflexivity.
Defined.

(** ** The filter switched off *)

(** C6: with "Add filters" unticked the filter returns the frame it was
    given: same index, same columns, same order, nothing raised. *)
Theorem filter_disabled_identity :
  forall env ui df,
    st_checkbox ui "Add filters" = false ->
    filter_dataframe env ui df = Ok df.
Proof.
  intros env ui df Hoff. unfold filter_dataframe. rewrite Hoff. reflexivity.
Qed.

Lemma filter_disabled_identity_witness :
  filter_dataframe (Example.env Sample.pings) Sample.idle_ui Sample.pings
  = Ok Sample.pings.
Proof.
  apply (filter_disabled_identity (Example.env Sample.pings) Sample.idle_ui
           Sample.pings).
  reflexivity.
Defined.

(** ** Column kinds *)

Lemma column_kind_categorical_iff (c : column) :
  column_kind c = Categorical
  <-> is_categorical_dtype c = true \/ (nunique (col_values c) < 10)%nat.
Proof.
  unfold column_kind. rewrite <- Nat.ltb_lt, <- orb_true_iff.
  destruct (is_categorical_dtype c || (nunique (col_values c) <? 10)%nat).
  - tauto.
  - split; [| discriminate].
    destruct (is_numeric_dtype c); [discriminate |].
    destruct (is_datetime64_any_dtype c); discriminate.
Qed.

Lemma column_kind_category (c : column) :
  is_categorical_dtype c = true -> column_kind c = Categorical.
Proof. intros H. apply column_kind_categorical_iff. now left. Qed.

(** The branch each kind takes. *)

Lemma filter_column_categorical env ui df name c :
  get_column df name = Some c ->
  column_kind c = Categorical ->
  filter_column env ui df name
  = Ok (mask_df
          (map (isin (st_multiselect ui (Py.fstring ["Values for "; name])
                        (unique (col_values c)) (unique (col_values c))))
               (col_values c)) df).
Proof.
  intros Hget Hkind. unfold filter_column. rewrite Hget, Hkind. reflexivity.
Qed.

Lemma filter_column_numerical env ui df name c :
  get_column df name = Some c ->
  column_kind c = Numerical ->
  filter_column env ui df name
  = let answer :=
      st_slider ui (Py.fstring ["Values for "; name])
        (num_min (col_values c)) (num_max (col_values c))
        (num_min (col_values c), num_max (col_values c))
        (slider_step (num_max (col_values c)) (num_min (col_values c))) in
    Ok (mask_df (map (between (fst answer) (snd answer)) (col_values c)) df).
Proof.
  intros Hget Hkind. unfold filter_column. rewrite Hget, Hkind. reflexivity.
Qed.

(** C4: the cardinality test comes first.  A column is categorical exactly
    when its storage is categorical or it has fewer than 10 distinct
    (non-missing) values, so a numeric column is numeric exactly when it
    has 10 or more: below 10 its filter is the multiselect of the
    categorical branch, from 10 on the slider of the numeric one.  The
    columns with 9 and with 10 distinct numbers are classified
    accordingly. *)
Theorem classification_order :
  forall c,
    (column_kind c = Categorical
     <-> is_categorical_dtype c = true \/ (nunique (col_values c) < 10)%nat)
    /\ (is_numeric_dtype c = true ->
        (column_kind c = Numerical <-> (10 <= nunique (col_values c))%nat))
    /\ (forall env ui df name,
          get_column df name = Some c ->
          is_numeric_dtype c = true ->
          ((nunique (col_values c) < 10)%nat ->
           filter_column env ui df name
           = Ok (mask_df
                   (map (isin (st_multiselect ui
                                 (Py.fstring ["Values for "; name])
                                 (unique (col_values c))
                                 (unique (col_values c))))
                        (col_values c)) df))
          /\ ((10 <= nunique (col_values c))%nat ->
              filter_column env ui df name
              = let answer :=
                  st_slider ui (Py.fstring ["Values for "; name])
                    (num_min (col_values c)) (num_max (col_values c))
                    (num_min (col_values c), num_max (col_values c))
                    (slider_step (num_max (col_values c))
                                 (num_min (col_values c))) in
                Ok (mask_df (map (between (fst answer) (snd answer))
                                 (col_values c)) df)))
    /\ (nunique (col_values Sample.nine) = 9%nat
        /\ is_numeric_dtype Sample.nine = true
        /\ column_kind Sample.nine = Categorical)
    /\ (nunique (col_values Sample.ten) = 10%nat
        /\ is_numeric_dtype Sample.ten = true
        /\ column_kind Sample.ten = Numerical).
Proof.
  intros c.
  assert (Hnumeric : is_numeric_dtype c = true ->
            (column_kind c = Numerical <-> (10 <= nunique (col_values c))%nat)).
  { intros Hnum. unfold column_kind.
    assert (Hcat : is_categorical_dtype c = false).
    { unfold is_numeric_dtype in Hnum. unfold is_categorical_dtype.
      destruct (col_dtype c); try discriminate; reflexivity. }
    rewrite Hcat, Hnum. simpl.
    destruct (Nat.ltb_spec (nunique (col_values c)) 10); split;
      intros; try discriminate; try reflexivity; lia. }
  split; [apply column_kind_categorical_iff |].
  split; [exact Hnumeric |].
  split; [| split; repeat split; vm_compute; reflexivity].
  intros env ui df name Hget Hnum. split; intros Hcount.
  - apply filter_column_categorical; [exact Hget |].
    apply column_kind_categorical_iff. now right.
  - apply filter_column_numerical; [exact Hget |]. now apply Hnumeric.
Qed.

Lemma classification_order_witness :
  column_kind Sample.ten = Numerical
  <-> (10 <= nunique (col_values Sample.ten))%nat.
Proof.
  destruct (classification_order Sample.ten) as [_ [Hnumeric _]].
  apply Hnumeric. reflexivity.
Defined.

(** ** Boolean masks *)

Section Masks.
Context {A B : Type}.

Lemma select_nil_r (mask : list bool) : select mask (@nil A) = [].
Proof. destruct mask as [| [] mask]; reflexivity. Qed.

(** Masking twice is masking once with the conjunction. *)
Lemma select_select (p : B -> bool) (mask : list bool) (vs : list B)
  (xs : list A) :
  select (map p (select mask vs)) (select mask xs)
  = select (mask_and mask (map p vs)) xs.
Proof.
  revert vs xs. induction mask as [| b mask IH]; intros vs xs.
  - reflexivity.
  - destruct vs as [| v vs].
    + simpl. reflexivity.
    + destruct xs as [| x xs].
      * simpl. destruct b; simpl; try rewrite !select_nil_r; reflexivity.
      * destruct b; simpl.
        -- destruct (p v); now rewrite IH.
        -- apply IH.
Qed.

(** A weaker predicate keeps at least as many rows. *)
Lemma select_length_mono (p q : B -> bool) (vs : list B) (xs : list A) :
  (forall v, p v = true -> q v = true) ->
  (List.length (select (map p vs) xs)
   <= List.length (select (map q vs) xs))%nat.
Proof.
  intros Hpq. revert xs. induction vs as [| v vs IH]; intros [| x xs]; simpl;
    try lia.
  specialize (IH xs). specialize (Hpq v).
  destruct (p v), (q v); simpl; lia.
Qed.

(** A mask that holds on every row keeps everything. *)
Lemma select_all (p : B -> bool) (vs : list B) (xs : list A) :
  Forall (fun v => p v = true) vs ->
  (List.length xs <= List.length vs)%nat ->
  select (map p vs) xs = xs.
Proof.
  intros Hall. revert xs.
  induction Hall as [| v vs Hv _ IH]; intros [| x xs] Hlen; simpl in *;
    try reflexivity; try lia.
  rewrite Hv, IH; [reflexivity | lia].
Qed.
End Masks.

Lemma mask_and_comm (m1 m2 : list bool) : mask_and m1 m2 = mask_and m2 m1.
Proof.
  revert m2. induction m1 as [| a m1 IH]; intros [| b m2]; simpl;
    try reflexivity.
  now rewrite IH, andb_comm.
Qed.

Lemma get_column_mask (mask : list bool) (df : DataFrame) (name : string) :
  get_column (mask_df mask df) name
  = option_map (mask_column mask) (get_column df name).
Proof.
  unfold get_column, mask_df. simpl.
  induction (df_columns df) as [| c cols IH]; simpl; [reflexivity |].
  destruct (String.eqb name (col_name c)); [reflexivity | exact IH].
Qed.

Lemma values_label (name : string) :
  label_column (Py.fstring ["Values for "; name]) = name.
Proof. reflexivity. Qed.

Lemma substring_label (name : string) :
  label_column (Py.fstring ["Substring or regex in "; name]) = name.
Proof. reflexivity. Qed.

(** ** The normalisation pass *)

(** C5: with "Add filters" ticked the filter works on the normalised copy,
    and the pass itself raises nothing.  In it every object column is
    handed to pd.to_datetime: when that succeeds the column becomes the
    parsed timestamps, made timezone-naive; when it fails the column is
    left as it was. *)
Theorem normalization_pass :
  forall env ui df,
    st_checkbox ui "Add filters" = true ->
    filter_dataframe env ui df
    = filter_columns env ui (normalize env df)
        (st_multiselect_columns ui "Filter data on"
           (columns (normalize env df)))
    /\ df_index (normalize env df) = df_index df
    /\ df_columns (normalize env df)
       = map (normalize_column env) (df_columns df)
    /\ (forall c,
          is_object_dtype c = true ->
          (forall tz parsed,
              pd_to_datetime env (col_values c) = Some (tz, parsed) ->
              normalize_column env c
              = {| col_name := col_name c;
                   col_dtype := Datetime64 None;
                   col_values := map (localize_cell tz) parsed |})
          /\ (pd_to_datetime env (col_values c) = None ->
              normalize_column env c = c)).
Proof.
  intros env ui df Hon. split; [| split; [| split]]; try reflexivity.
  - unfold filter_dataframe. rewrite Hon. reflexivity.
  - intros c Hobj. split.
    + intros tz parsed Hparse. unfold normalize_column.
      rewrite Hobj, Hparse. reflexivity.
    + intros Hfail. unfold normalize_column. rewrite Hobj, Hfail.
      unfold is_object_dtype in Hobj. unfold is_datetime64_any_dtype.
      destruct (col_dtype c); try discriminate; reflexivity.
Qed.

Lemma normalization_pass_witness :
  normalize_column (Example.env Sample.pings) Sample.day_column
  = {| col_name := "DAY";
       col_dtype := Datetime64 None;
       col_values := [CTime 1704067200000000000; CTime 1704153600000000000;
                      CNaT] |}
  /\ normalize_column (Example.env Sample.pings) Sample.word_column
     = Sample.word_column.
Proof.
  destruct (normalization_pass (Example.env Sample.pings)
              (default_ui []) Sample.pings eq_refl) as [_ [_ [_ Hcol]]].
  split.
  - destruct (Hcol Sample.day_column eq_refl) as [Hparsed _].
    apply (Hparsed None [CTime 1704067200000000000;
                         CTime 1704153600000000000; CNaT]).
    vm_compute. reflexivity.
  - destruct (Hcol Sample.word_column eq_refl) as [_ Hkept].
    apply Hkept. vm_compute. reflexivity.
Defined.

(** ** Numeric intervals *)

Lemma between_narrow (a b a' b' : float) (x : cell) :
  float_le a a' -> float_le b' b ->
  between a' b' x = true -> between a b x = true.
Proof.
  destruct a as [a |], a' as [a' |]; simpl; try tauto.
  destruct b' as [b' |], b as [b |]; simpl; try tauto; try discriminate.
  intros Ha Hb. destruct x; try discriminate.
  rewrite !andb_true_iff, !Qle_bool_iff. intros [Hlo Hhi]. split.
  - now apply Qle_trans with a'.
  - now apply Qle_trans with b'.
Qed.

(** C7: on a numeric column, an interval [a', b'] inside [a, b] keeps at
    most as many rows as [a, b] does: for the filter of that column on any
    frame, whatever else the two viewers do, and for the whole filter when
    the column is the one selected. *)
Theorem narrowing_interval_monotone :
  forall env df name c a b a' b',
    float_le a a' -> float_le b' b ->
    (forall ui1 ui2,
        get_column df name = Some c ->
        column_kind c = Numerical ->
        (forall lo hi value step,
            st_slider ui1 (Py.fstring ["Values for "; name]) lo hi value step
            = (a', b')) ->
        (forall lo hi value step,
            st_slider ui2 (Py.fstring ["Values for "; name]) lo hi value step
            = (a, b)) ->
        exists r1 r2,
          filter_column env ui1 df name = Ok r1
          /\ filter_column env ui2 df name = Ok r2
          /\ (nrows r1 <= nrows r2)%nat)
    /\ (get_column (normalize env df) name = Some c ->
        column_kind c = Numerical ->
        exists r1 r2,
          filter_dataframe env
            (spec_ui [name] (fun _ => SpecNumerical a' b')) df = Ok r1
          /\ filter_dataframe env
               (spec_ui [name] (fun _ => SpecNumerical a b)) df = Ok r2
          /\ (nrows r1 <= nrows r2)%nat).
Proof.
  intros env df name c a b a' b' Ha Hb.
  assert (Hcore : forall d ui1 ui2,
    get_column d name = Some c ->
    column_kind c = Numerical ->
    (forall lo hi value step,
        st_slider ui1 (Py.fstring ["Values for "; name]) lo hi value step
        = (a', b')) ->
    (forall lo hi value step,
        st_slider ui2 (Py.fstring ["Values for "; name]) lo hi value step
        = (a, b)) ->
    exists r1 r2,
      filter_column env ui1 d name = Ok r1
      /\ filter_column env ui2 d name = Ok r2
      /\ (nrows r1 <= nrows r2)%nat).
  { intros d ui1 ui2 Hget Hkind H1 H2.
    rewrite (filter_column_numerical env ui1 d name c Hget Hkind).
    rewrite (filter_column_numerical env ui2 d name c Hget Hkind).
    cbv zeta. rewrite H1, H2. simpl fst. simpl snd.
    eexists. eexists. split; [reflexivity |]. split; [reflexivity |].
    unfold nrows, mask_df. simpl df_index.
    apply select_length_mono. intros v. now apply between_narrow. }
  split.
  - intros ui1 ui2. apply Hcore.
  - intros Hget Hkind.
    destruct (Hcore (normalize env df)
                (spec_ui [name] (fun _ => SpecNumerical a' b'))
                (spec_ui [name] (fun _ => SpecNumerical a b)) Hget Hkind)
      as (r1 & r2 & H1 & H2 & Hle); try reflexivity.
    exists r1, r2. unfold filter_dataframe. simpl.
    rewrite H1, H2. simpl. auto.
Qed.

Lemma narrowing_interval_monotone_witness :
  exists r1 r2,
    filter_dataframe (Example.env Sample.pings)
      (spec_ui ["AVG_PING"]
         (fun _ => SpecNumerical (Some (3 # 1)) (Some (7 # 1))))
      Sample.pings = Ok r1
    /\ filter_dataframe (Example.env Sample.pings)
         (spec_ui ["AVG_PING"]
            (fun _ => SpecNumerical (Some (2 # 1)) (Some (9 # 1))))
         Sample.pings = Ok r2
    /\ (nrows r1 <= nrows r2)%nat.
Proof.
  assert (Ha : float_le (Some (2 # 1)) (Some (3 # 1))).
  { simpl. unfold Qle. simpl. lia. }
  assert (Hb : float_le (Some (7 # 1)) (Some (9 # 1))).
  { simpl. unfold Qle. simpl. lia. }
  destruct (narrowing_interval_monotone (Example.env Sample.pings)
              Sample.pings "AVG_PING" Sample.ten
              (Some (2 # 1)) (Some (9 # 1)) (Some (3 # 1)) (Some (7 # 1))
              Ha Hb) as [_ Hwhole].
  apply Hwhole; vm_compute; reflexivity.
Defined.

(** ** Text patterns *)

Lemma truthy_nonempty (s : string) : s <> "" -> Py.truthy s = true.
Proof. destruct s; [congruence | reflexivity]. Qed.

Lemma filter_column_textual env ui df name c :
  get_column df name = Some c ->
  column_kind c = Textual ->
  filter_column env ui df name
  = let pattern := st_text_input ui
                     (Py.fstring ["Substring or regex in "; name]) in
    if Py.truthy pattern then
      match re_compile env pattern with
      | None => Raise ReError
      | Some search =>
          Ok (mask_df (map (fun x => search (cell_str env x)) (col_values c))
                      df)
      end
    else Ok df.
Proof.
  intros Hget Hkind. unfold filter_column. rewrite Hget, Hkind. reflexivity.
Qed.




(** ** Untouched widgets *)

Lemma cell_eqb_refl (x : cell) : cell_eqb x x = true.
Proof.
  destruct x; simpl; try reflexivity.
  - apply Qeq_bool_iff. reflexivity.
  - apply String.eqb_refl.
  - apply Z.eqb_refl.
Qed.

Lemma cell_eqb_sym (x y : cell) : cell_eqb x y = cell_eqb y x.
Proof.
  destruct x, y; simpl; try reflexivity.
  - apply eq_true_iff_eq. rewrite !Qeq_bool_iff. split; intros H; now symmetry.
  - apply String.eqb_sym.
  - apply Z.eqb_sym.
Qed.

Lemma cell_eqb_trans (x y z : cell) :
  cell_eqb x y = true -> cell_eqb y z = true -> cell_eqb x z = true.
Proof.
  destruct x, y, z; simpl; try discriminate; try reflexivity.
  - rewrite !Qeq_bool_iff. intros H1 H2. now rewrite H1.
  - rewrite !String.eqb_eq. congruence.
  - rewrite !Z.eqb_eq. congruence.
Qed.

(** Every value of a column is among its distinct values. *)
Lemma isin_unique (l : list cell) (x : cell) :
  In x l -> isin (unique l) x = true.
Proof.
  unfold isin. induction l as [| h r IH]; simpl; [tauto |].
  intros [-> | Hin].
  - now rewrite cell_eqb_refl.
  - destruct (cell_eqb x h) eqn:Hxh; [reflexivity |]. simpl.
    specialize (IH Hin). apply existsb_exists in IH as [y [Hy Hxy]].
    apply existsb_exists. exists y. split; [| exact Hxy].
    apply filter_In. split; [exact Hy |].
    destruct (cell_eqb h y) eqn:Hhy; [| reflexivity].
    rewrite (cell_eqb_sym h y) in Hhy.
    now rewrite (cell_eqb_trans x y h Hxy Hhy) in Hxh.
Qed.

Lemma Qmin_b_le_l (p q : Q) : Qle_bool (Qmin_b p q) p = true.
Proof.
  unfold Qmin_b. destruct (Qle_bool p q) eqn:H.
  - apply Qle_bool_iff, Qle_refl.
  - apply Qle_bool_iff. destruct (Qlt_le_dec q p) as [Hlt | Hle].
    + now apply Qlt_le_weak.
    + apply Qle_bool_iff in Hle. congruence.
Qed.

Lemma Qmin_b_le_r (p q : Q) : Qle_bool (Qmin_b p q) q = true.
Proof.
  unfold Qmin_b. destruct (Qle_bool p q) eqn:H; [exact H |].
  apply Qle_bool_iff, Qle_refl.
Qed.

Lemma Qmax_b_ge_l (p q : Q) : Qle_bool p (Qmax_b p q) = true.
Proof.
  unfold Qmax_b. destruct (Qle_bool p q) eqn:H; [exact H |].
  apply Qle_bool_iff, Qle_refl.
Qed.

Lemma Qmax_b_ge_r (p q : Q) : Qle_bool q (Qmax_b p q) = true.
Proof.
  unfold Qmax_b. destruct (Qle_bool p q) eqn:H.
  - apply Qle_bool_iff, Qle_refl.
  - apply Qle_bool_iff. destruct (Qlt_le_dec q p) as [Hlt | Hle].
    + now apply Qlt_le_weak.
    + apply Qle_bool_iff in Hle. congruence.
Qed.

Lemma Qle_bool_trans (p q r : Q) :
  Qle_bool p q = true -> Qle_bool q r = true -> Qle_bool p r = true.
Proof. rewrite !Qle_bool_iff. apply Qle_trans. Qed.

Lemma num_min_le (l : list cell) (q : Q) :
  In (CNum q) l -> exists m, num_min l = Some m /\ Qle_bool m q = true.
Proof.
  induction l as [| h r IH]; simpl; [tauto |].
  intros [-> | Hin].
  - destruct (num_min r) as [m |]; eexists; (split; [reflexivity |]).
    + apply Qmin_b_le_l.
    + apply Qle_bool_iff, Qle_refl.
  - destruct (IH Hin) as [m [Hm Hle]]. rewrite Hm.
    destruct h; try (exists m; split; [reflexivity | exact Hle]).
    eexists. split; [reflexivity |].
    apply Qle_bool_trans with m; [apply Qmin_b_le_r | exact Hle].
Qed.

Lemma num_max_ge (l : list cell) (q : Q) :
  In (CNum q) l -> exists m, num_max l = Some m /\ Qle_bool q m = true.
Proof.
  induction l as [| h r IH]; simpl; [tauto |].
  intros [-> | Hin].
  - destruct (num_max r) as [m |]; eexists; (split; [reflexivity |]).
    + apply Qmax_b_ge_l.
    + apply Qle_bool_iff, Qle_refl.
  - destruct (IH Hin) as [m [Hm Hle]]. rewrite Hm.
    destruct h; try (exists m; split; [reflexivity | exact Hle]).
    eexists. split; [reflexivity |].
    apply Qle_bool_trans with m; [exact Hle | apply Qmax_b_ge_r].
Qed.

(** The full observed range contains every number of the column. *)
Lemma between_full_range (l : list cell) (x : cell) :
  In x l -> is_number x = true ->
  between (num_min l) (num_max l) x = true.
Proof.
  intros Hin Hnum. destruct x; try discriminate.
  destruct (num_min_le l q Hin) as [lo [-> Hlo]].
  destruct (num_max_ge l q Hin) as [hi [-> Hhi]].
  simpl. now rewrite Hlo, Hhi.
Qed.

Lemma mask_column_id (mask : list bool) (c : column) :
  select mask (col_values c) = col_values c -> mask_column mask c = c.
Proof. unfold mask_column. intros ->. now destruct c. Qed.

(** A mask that holds on every row of a well-formed frame returns it. *)
Lemma well_formed_length (df : DataFrame) (c : column) :
  well_formed df = true ->
  In c (df_columns df) ->
  List.length (col_values c) = List.length (df_index df).
Proof.
  unfold well_formed. rewrite andb_true_iff, forallb_forall.
  intros [_ Hlen] Hin. now apply Nat.eqb_eq, Hlen.
Qed.

Lemma mask_df_all (p : cell -> bool) (df : DataFrame) (c : column) :
  well_formed df = true ->
  In c (df_columns df) ->
  Forall (fun x => p x = true) (col_values c) ->
  mask_df (map p (col_values c)) df = df.
Proof.
  intros Hwf Hin Hall.
  assert (Hlen : forall c', In c' (df_columns df) ->
                   List.length (col_values c') = List.length (df_index df)).
  { intros c'. now apply well_formed_length. }
  unfold mask_df. destruct df as [index cols]. simpl in *. f_equal.
  - apply select_all; [exact Hall |]. rewrite (Hlen c Hin). lia.
  - rewrite <- (map_id cols) at 2. apply map_ext_in. intros c' Hc'.
    apply mask_column_id. apply select_all; [exact Hall |].
    rewrite (Hlen c Hin), (Hlen c' Hc'). lia.
Qed.

Lemma get_column_In (df : DataFrame) (name : string) (c : column) :
  get_column df name = Some c -> In c (df_columns df).
Proof. unfold get_column. intros H. now apply find_some in H. Qed.

(** An untouched widget on a plain column filters nothing. *)
Lemma filter_column_default env ui df name c :
  leaves_defaults ui ->
  well_formed df = true ->
  get_column df name = Some c ->
  plain_column c = true ->
  filter_column env ui df name = Ok df.
Proof.
  intros (Hmulti & Hslider & _ & Htext) Hwf Hget Hplain.
  pose proof (get_column_In df name c Hget) as Hin.
  unfold filter_column. rewrite Hget. unfold plain_column in Hplain.
  destruct (column_kind c).
  - rewrite Hmulti. f_equal. apply mask_df_all; [exact Hwf | exact Hin |].
    apply Forall_forall. intros x Hx. now apply isin_unique.
  - rewrite Hslider. simpl fst. simpl snd. f_equal.
    apply mask_df_all; [exact Hwf | exact Hin |].
    apply Forall_forall. intros x Hx. apply between_full_range; [exact Hx |].
    rewrite forallb_forall in Hplain. specialize (Hplain x Hx).
    now destruct x.
  - discriminate.
  - rewrite Htext. reflexivity.
Qed.

(** C2, as the code has it: with "Add filters" ticked and every widget left
    untouched, the filter returns the normalised copy of the input, row for
    row (so with the input's index and row count), whenever each selected
    column is textual, categorical without a missing value, or numeric with
    float64 numbers of ordinary magnitude and no missing value: the columns
    whose untouched multiselect, slider or text box is given arguments it
    accepts and then lets every row through.  The content is that of the
    input after the normalisation pass, which is the input itself when the
    pass changes no column. *)
Theorem default_filters_keep_rows :
  forall env ui df,
    st_checkbox ui "Add filters" = true ->
    leaves_defaults ui ->
    well_formed (normalize env df) = true ->
    Forall (fun name =>
              exists c, get_column (normalize env df) name = Some c
                        /\ plain_column c = true)
           (st_multiselect_columns ui "Filter data on"
              (columns (normalize env df))) ->
    filter_dataframe env ui df = Ok (normalize env df)
    /\ df_index (normalize env df) = df_index df
    /\ nrows (normalize env df) = nrows df
    /\ (Forall (fun c => normalize_column env c = c) (df_columns df) ->
        filter_dataframe env ui df = Ok df).
Proof.
  intros env ui df Hon Hdefault Hwf Hsel.
  assert (Hrun : filter_dataframe env ui df = Ok (normalize env df)).
  { unfold filter_dataframe. rewrite Hon. simpl.
    induction Hsel as [| name rest (c & Hget & Hplain) _ IH]; simpl;
      [reflexivity |].
    rewrite (filter_column_default env ui _ name c Hdefault Hwf Hget Hplain).
    exact IH. }
  split; [exact Hrun |]. split; [reflexivity |]. split; [reflexivity |].
  intros Hsame. rewrite Hrun. f_equal. unfold normalize.
  destruct df as [index cols]. simpl in *. f_equal.
  rewrite <- (map_id cols) at 2. apply map_ext_in. intros c Hc.
  rewrite Forall_forall in Hsame. now apply Hsame.
Qed.

Lemma default_ui_leaves_defaults (selected : list string) :
  leaves_defaults (default_ui selected).
Proof. repeat split. Qed.

Lemma default_filters_keep_rows_witness :
  filter_dataframe (Example.env Sample.pings) (default_ui ["AVG_PING"])
    Sample.speed_tests
  = Ok (normalize (Example.env Sample.pings) Sample.speed_tests).
Proof.
  refine (proj1 (default_filters_keep_rows (Example.env Sample.pings)
                   (default_ui ["AVG_PING"]) Sample.speed_tests
                   eq_refl (default_ui_leaves_defaults _) eq_refl _)).
  constructor; [| constructor].
  exists (Sample.num_column "AVG_PING"
            [31; 32; 33; 34; 35; 36; 37; 38; 39; 40]%Z).
  split; vm_compute; reflexivity.
Defined.

(** C2 as stated fails, with every widget untouched, in three ways.  The
    date picker shows the dates of the first and last timestamp, and the
    filter then keeps what lies between the two midnights: of ten tests
    taken at noon the last is dropped.  The full range of a numeric column
    leaves out the rows whose value is missing.  And with no column
    selected at all the content changes: a timezone-aware column comes back
    naive, on its wall clock. *)
Lemma default_filters_counterexample :
  leaves_defaults (default_ui ["END_DATE"])
  /\ (exists r,
        filter_dataframe (Example.env Sample.pings) (default_ui ["END_DATE"])
          Sample.speed_tests = Ok r
        /\ nrows Sample.speed_tests = 10%nat /\ nrows r = 9%nat)
  /\ (exists r,
        filter_dataframe (Example.env Sample.pings) (default_ui ["AVG_PING"])
          Sample.gappy = Ok r
        /\ nrows Sample.gappy = 11%nat /\ nrows r = 10%nat)
  /\ (exists r,
        filter_dataframe (Example.env Sample.pings) (default_ui [])
          Sample.zoned_tests = Ok r
        /\ r <> Sample.zoned_tests).
Proof.
  split; [apply default_ui_leaves_defaults |].
  split; [| split].
  - eexists. split; [vm_compute; reflexivity |]. split; reflexivity.
  - eexists. split; [vm_compute; reflexivity |]. split; reflexivity.
  - eexists. split; [vm_compute; reflexivity |]. discriminate.
Qed.

(** ** Two filters *)

Lemma mask_df_both {B : Type} (p : B -> bool) (mask : list bool)
  (vs : list B) (df : DataFrame) :
  mask_df (map p (select mask vs)) (mask_df mask df)
  = mask_df (mask_and mask (map p vs)) df.
Proof.
  unfold mask_df. simpl. f_equal.
  - apply select_select.
  - rewrite map_map. apply map_ext. intros c. unfold mask_column. simpl.
    f_equal. apply select_select.
Qed.

(** With the viewer [spec_ui], the filter of a column whose kind is that of
    its Filter Spec applies the spec's test to each cell of the column. *)
Lemma filter_column_spec env selected specs df name c :
  get_column df name = Some c ->
  column_kind c = spec_kind (specs name) ->
  filter_column env (spec_ui selected specs) df name
  = p <- row_predicate env (specs name) ;;
    Ok (apply_filter p (col_values c) df).
Proof.
  intros Hget Hkind. unfold filter_column. rewrite Hget, Hkind.
  unfold spec_ui, st_multiselect, st_slider, st_date_input, st_text_input.
  rewrite ?values_label, ?substring_label.
  destruct (specs name) as [allowed | lo hi | picked | pattern]; simpl.
  - reflexivity.
  - reflexivity.
  - destruct picked as [| d1 [| d2 [| d3 rest]]]; reflexivity.
  - destruct (Py.truthy pattern); [| reflexivity].
    destruct (re_compile env pattern); reflexivity.
Qed.

Lemma row_predicate_raises env s e :
  row_predicate env s = Raise e -> e = ReError.
Proof.
  destruct s as [allowed | lo hi | picked | pattern]; simpl; try discriminate.
  - destruct picked as [| d1 [| d2 [| d3 rest]]]; discriminate.
  - destruct (Py.truthy pattern); [| discriminate].
    destruct (re_compile env pattern); [discriminate | congruence].
Qed.

Lemma get_column_apply_filter p values df name :
  get_column (apply_filter p values df) name
  = option_map
      (fun c => match p with
                | Some f => mask_column (map f values) c
                | None => c
                end)
      (get_column df name).
Proof.
  destruct p as [f |]; simpl.
  - apply get_column_mask.
  - now destruct (get_column df name).
Qed.

(** What two filters in a row leave of a frame: the rows on which both
    tests hold. *)
Lemma apply_filter_twice p q (va vb : list cell) (df : DataFrame) :
  apply_filter q
    (match p with Some f => select (map f va) vb | None => vb end)
    (apply_filter p va df)
  = match p, q with
    | Some f, Some g => mask_df (mask_and (map f va) (map g vb)) df
    | Some f, None => mask_df (map f va) df
    | None, Some g => mask_df (map g vb) df
    | None, None => df
    end.
Proof.
  destruct p as [f |], q as [g |]; simpl; try reflexivity.
  apply mask_df_both.
Qed.

(** The filter of [a] followed by the filter of [b], when each column
    takes the branch of its Filter Spec. *)
Lemma filter_two_columns env selected specs df a b ca cb :
  get_column df a = Some ca ->
  get_column df b = Some cb ->
  column_kind ca = spec_kind (specs a) ->
  column_kind cb = spec_kind (specs b) ->
  (forall da, filter_column env (spec_ui selected specs) df a = Ok da ->
              kind_in da b = kind_in df b) ->
  filter_columns env (spec_ui selected specs) df [a; b]
  = p <- row_predicate env (specs a) ;;
    q <- row_predicate env (specs b) ;;
    Ok match p, q with
       | Some f, Some g =>
           mask_df (mask_and (map f (col_values ca)) (map g (col_values cb)))
                   df
       | Some f, None => mask_df (map f (col_values ca)) df
       | None, Some g => mask_df (map g (col_values cb)) df
       | None, None => df
       end.
Proof.
  intros Ha Hb Hka Hkb Hstable. simpl.
  rewrite (filter_column_spec env selected specs df a ca Ha Hka) in *.
  destruct (row_predicate env (specs a)) as [p | e]; simpl; [| reflexivity].
  specialize (Hstable _ eq_refl). unfold kind_in in Hstable.
  rewrite get_column_apply_filter, Hb in Hstable. simpl in Hstable.
  injection Hstable as Hstable.
  rewrite (filter_column_spec env selected specs _ b
             (match p with
              | Some f => mask_column (map f (col_values ca)) cb
              | None => cb
              end)).
  - destruct (row_predicate env (specs b)) as [q | e]; simpl;
      [| destruct p; reflexivity].
    rewrite <- (apply_filter_twice p q (col_values ca) (col_values cb) df).
    destruct p; reflexivity.
  - rewrite get_column_apply_filter, Hb. reflexivity.
  - now rewrite Hstable.
Qed.

Lemma filter_column_selected env s1 s2 specs df name :
  filter_column env (spec_ui s1 specs) df name
  = filter_column env (spec_ui s2 specs) df name.
Proof. reflexivity. Qed.

Lemma mask_and_true_r (m : list bool) (vs : list cell) :
  List.length m = List.length vs ->
  mask_and m (map (fun _ => true) vs) = m.
Proof.
  revert vs. induction m as [| b m IH]; intros [| v vs] Hlen; simpl in *;
    try reflexivity; try discriminate.
  rewrite andb_true_r, IH; [reflexivity | lia].
Qed.

Lemma mask_of_length p vs : List.length (mask_of p vs) = List.length vs.
Proof. unfold mask_of. apply length_map. Qed.

Lemma apply_filter_mask_of p (c : column) (df : DataFrame) :
  well_formed df = true ->
  In c (df_columns df) ->
  apply_filter p (col_values c) df = mask_df (mask_of p (col_values c)) df.
Proof.
  intros Hwf Hin. destruct p as [f |]; simpl; [reflexivity |].
  symmetry. unfold mask_of. apply mask_df_all; [exact Hwf | exact Hin |].
  apply Forall_forall. reflexivity.
Qed.

Lemma both_masks p q (ca cb : column) (df : DataFrame) :
  well_formed df = true ->
  In ca (df_columns df) ->
  In cb (df_columns df) ->
  match p, q with
  | Some f, Some g =>
      mask_df (mask_and (map f (col_values ca)) (map g (col_values cb))) df
  | Some f, None => mask_df (map f (col_values ca)) df
  | None, Some g => mask_df (map g (col_values cb)) df
  | None, None => df
  end
  = mask_df (mask_and (mask_of p (col_values ca)) (mask_of q (col_values cb)))
            df.
Proof.
  intros Hwf Ha Hb.
  pose proof (well_formed_length df ca Hwf Ha) as Hla.
  pose proof (well_formed_length df cb Hwf Hb) as Hlb.
  destruct p as [f |], q as [g |]; unfold mask_of.
  - reflexivity.
  - rewrite mask_and_true_r; [reflexivity |]. rewrite length_map. lia.
  - rewrite mask_and_comm, mask_and_true_r; [reflexivity |].
    rewrite length_map. lia.
  - rewrite mask_and_true_r; [| rewrite length_map; lia].
    symmetry. apply mask_df_all; [exact Hwf | exact Ha |].
    apply Forall_forall. reflexivity.
Qed.

Lemma select_subset (i : Z) (mask : list bool) (index : list Z) :
  existsb (Z.eqb i) index = false ->
  existsb (Z.eqb i) (select mask index) = false.
Proof.
  revert index. induction mask as [| b mask IH]; intros [| j index]; simpl;
    try reflexivity.
  rewrite orb_false_iff. intros [Hj Hrest].
  destruct b; simpl; rewrite ?Hj, IH; auto.
Qed.

(** In an index without repeated labels, the labels a mask keeps tell the
    mask. *)
Lemma kept_labels (mask : list bool) (index : list Z) :
  unique_labels index = true ->
  List.length mask = List.length index ->
  map (fun i => existsb (Z.eqb i) (select mask index)) index = mask.
Proof.
  revert mask. induction index as [| i index IH]; intros [| b mask];
    simpl; try reflexivity; try discriminate.
  rewrite andb_true_iff, negb_true_iff. intros [Hfresh Hunique] Hlen.
  f_equal.
  - destruct b; simpl.
    + now rewrite Z.eqb_refl.
    + now apply select_subset.
  - transitivity (map (fun j => existsb (Z.eqb j) (select mask index)) index);
      [| apply IH; [exact Hunique | lia]].
    apply map_ext_in. intros j Hj. destruct b; simpl; [| reflexivity].
    destruct (Z.eqb_spec j i) as [-> | _]; [| reflexivity].
    exfalso. assert (existsb (Z.eqb i) index = true); [| congruence].
    apply existsb_exists. exists i. split; [exact Hj | apply Z.eqb_refl].
Qed.

(** The rows two masks share are the rows their conjunction keeps. *)
Lemma intersection_masks (m1 m2 : list bool) (df : DataFrame) :
  well_formed df = true ->
  List.length m2 = List.length (df_index df) ->
  intersection (mask_df m1 df) (mask_df m2 df) = mask_df (mask_and m1 m2) df.
Proof.
  intros Hwf Hlen. unfold intersection.
  change (df_index (mask_df m1 df)) with (select m1 (df_index df)).
  change (df_index (mask_df m2 df)) with (select m2 (df_index df)).
  rewrite (mask_df_both
             (fun i => existsb (Z.eqb i) (select m2 (df_index df)))).
  rewrite kept_labels; [reflexivity | | exact Hlen].
  unfold well_formed in Hwf. now apply andb_true_iff in Hwf as [Hu _].
Qed.


(** An interval that holds two numbers holds those in between. *)
Lemma between_convex (lo hi : float) (p q r : Q) :
  (p <= q)%Q -> (q <= r)%Q ->
  between lo hi (CNum p) = true -> between lo hi (CNum r) = true ->
  between lo hi (CNum q) = true.
Proof.
  intros Hpq Hqr. destruct lo as [a |], hi as [b |]; simpl; try discriminate.
  rewrite !andb_true_iff, !Qle_bool_iff. intros [Hap _] [_ Hrb]. split.
  - now apply Qle_trans with p.
  - now apply Qle_trans with r.
Qed.

(** With AVG_PING filtered first its slider keeps a run of consecutive
    pings, and PROBE cannot tell the pings of one probe apart: no answers
    at all leave the pings 1, 3 and 5. *)
Lemma slider_first_misses_odd_pings :
  ~ exists ui,
      st_checkbox ui "Add filters" = true
      /\ st_multiselect_columns ui "Filter data on" ["AVG_PING"; "PROBE"]
         = ["AVG_PING"; "PROBE"]
      /\ filter_dataframe (Example.env Sample.pings) ui Sample.outpost
         = Ok Sample.odd_pings.
Proof.
  intros (ui & Hon & Hsel & Hrun).
  unfold filter_dataframe in Hrun. rewrite Hon in Hrun. cbv zeta in Hrun.
  change (normalize (Example.env Sample.pings) Sample.outpost)
    with Sample.outpost in Hrun.
  change (columns Sample.outpost) with ["AVG_PING"; "PROBE"] in Hrun.
  rewrite Hsel in Hrun. simpl negb in Hrun. cbv iota in Hrun.
  assert (Htwo : forall env u d a b,
    filter_columns env u d [a; b]
    = bind (filter_column env u d a) (fun d' => filter_column env u d' b)).
  { intros. simpl. destruct (filter_column env u d a) as [d' |]; simpl;
      [| reflexivity].
    destruct (filter_column env u d' b); reflexivity. }
  rewrite Htwo in Hrun. clear Htwo.
  rewrite (filter_column_numerical _ ui Sample.outpost "AVG_PING"
             (Sample.num_column "AVG_PING" [1; 2; 3; 4; 5; 6; 7; 8; 9; 10]%Z)
             eq_refl eq_refl) in Hrun.
  cbv zeta in Hrun.
  destruct (st_slider ui _ _ _ _ _) as [lo hi] in Hrun.
  simpl fst in Hrun. simpl snd in Hrun. unfold bind in Hrun.
  set (pings := col_values (Sample.num_column "AVG_PING"
                              [1; 2; 3; 4; 5; 6; 7; 8; 9; 10]%Z)) in Hrun.
  set (probes := (repeat (CStr "north") 9 ++ [CStr "south"])%list).
  rewrite (filter_column_categorical _ ui _ "PROBE"
             (mask_column (map (between lo hi) pings)
                {| col_name := "PROBE"; col_dtype := Category;
                   col_values := probes |})) in Hrun.
  2: { rewrite get_column_mask. reflexivity. }
  2: { apply column_kind_category. reflexivity. }
  set (chosen := st_multiselect ui _ _ _) in Hrun.
  change (col_values (mask_column (map (between lo hi) pings)
                        {| col_name := "PROBE"; col_dtype := Category;
                           col_values := probes |}))
    with (select (map (between lo hi) pings) probes) in Hrun.
  rewrite (mask_df_both (isin chosen)) in Hrun.
  assert (Hidx := f_equal (fun r => match r with
                                    | Ok d => df_index d
                                    | Raise _ => []
                                    end) Hrun).
  cbv beta iota in Hidx. clear Hrun.
  change (select (mask_and (map (between lo hi) pings)
                           (map (isin chosen) probes))
                 (Sample.range_index 10) = [0; 2; 4]%Z) in Hidx.
  clearbody chosen.
  pose proof (kept_labels
                (mask_and (map (between lo hi) pings)
                          (map (isin chosen) probes))
                (Sample.range_index 10) eq_refl eq_refl) as Hmask.
  rewrite Hidx in Hmask.
  change (map (fun i => existsb (Z.eqb i) [0; 2; 4]%Z) (Sample.range_index 10))
    with [true; false; true; false; true; false; false; false; false; false]
    in Hmask.
  subst pings probes.
  cbn [Sample.num_column col_values map repeat app mask_and] in Hmask.
  injection Hmask as H1 H2 H3 _.
  symmetry in H1, H2, H3.
  apply andb_true_iff in H1 as [B1 N], H3 as [B3 _].
  rewrite N, andb_true_r in H2.
  rewrite (between_convex lo hi (inject_Z 1) (inject_Z 2) (inject_Z 3))
    in H2; try assumption; try discriminate.
Qed.



(** * Further properties *)

From Stdlib Require Import Lqa.
Import Notions.

(** ** The filter only drops rows *)

Lemma select_then {A : Type} (m1 m2 : list bool) (xs : list A) :
  select m2 (select m1 xs) = select (mask_then m1 m2) xs.
Proof.
  revert m2 xs. induction m1 as [| b m1 IH]; intros m2 xs.
  - simpl. now rewrite select_nil_r.
  - destruct b.
    + destruct m2 as [| b2 m2], xs as [| x xs]; simpl; try reflexivity.
      rewrite IH. reflexivity.
    + destruct xs as [| x xs]; simpl.
      * now rewrite !select_nil_r.
      * apply IH.
Qed.

Lemma mask_df_then (m1 m2 : list bool) (df : DataFrame) :
  mask_df m2 (mask_df m1 df) = mask_df (mask_then m1 m2) df.
Proof.
  unfold mask_df. simpl. f_equal.
  - apply select_then.
  - rewrite map_map. apply map_ext. intros c. unfold mask_column. simpl.
    f_equal. apply select_then.
Qed.

Lemma select_repeat_true {A : Type} (n : nat) (xs : list A) :
  (List.length xs <= n)%nat -> select (repeat true n) xs = xs.
Proof.
  revert xs. induction n as [| n IH]; intros [| x xs] Hlen; simpl in *;
    try reflexivity; try lia.
  rewrite IH; [reflexivity | lia].
Qed.

Lemma le_list_sum (n : nat) (l : list nat) : In n l -> (n <= list_sum l)%nat.
Proof.
  induction l as [| h t IH]; simpl; [tauto |].
  intros [-> | Hin]; [lia | specialize (IH Hin); lia].
Qed.

Lemma mask_df_keep_all (df : DataFrame) : mask_df (keep_all df) df = df.
Proof.
  unfold mask_df, keep_all. destruct df as [index cols]. simpl. f_equal.
  - apply select_repeat_true. lia.
  - rewrite <- (map_id cols) at 3. apply map_ext_in. intros c Hc.
    apply mask_column_id. apply select_repeat_true.
    assert (List.length (col_values c)
            <= list_sum (map (fun c => List.length (col_values c)) cols))%nat.
    { apply le_list_sum. now apply (in_map (fun c => List.length (col_values c))). }
    lia.
Qed.

(** One column's filter returns the frame under a mask. *)
Lemma filter_column_masks env ui df name r :
  filter_column env ui df name = Ok r ->
  exists mask, r = mask_df mask df.
Proof.
  unfold filter_column.
  destruct (get_column df name) as [c |]; [| discriminate].
  destruct (column_kind c).
  - intros [= <-]. eexists. reflexivity.
  - intros [= <-]. eexists. reflexivity.
  - destruct (st_date_input ui _ _) as [| d1 [| d2 [| d3 rest]]];
      intros [= <-];
      try (exists (keep_all df); symmetry; apply mask_df_keep_all).
    eexists. reflexivity.
  - destruct (Py.truthy _).
    + destruct (re_compile env _); [| discriminate].
      intros [= <-]. eexists. reflexivity.
    + intros [= <-]. exists (keep_all df). symmetry. apply mask_df_keep_all.
Qed.

Lemma filter_columns_masks env ui selected :
  forall df r,
    filter_columns env ui df selected = Ok r ->
    exists mask, r = mask_df mask df.
Proof.
  induction selected as [| name rest IH]; intros df r; simpl.
  - intros [= <-]. exists (keep_all df). symmetry. apply mask_df_keep_all.
  - destruct (filter_column env ui df name) as [d |] eqn:Hstep;
      [| discriminate].
    simpl. intros Hrest.
    destruct (filter_column_masks _ _ _ _ _ Hstep) as [m1 ->].
    destruct (IH _ _ Hrest) as [m2 ->].
    exists (mask_then m1 m2). apply mask_df_then.
Qed.

Lemma select_length_le {A : Type} (mask : list bool) (xs : list A) :
  (List.length (select mask xs) <= List.length xs)%nat.
Proof.
  revert xs. induction mask as [| b mask IH]; intros [| x xs]; simpl;
    try lia.
  specialize (IH xs). destruct b; simpl; lia.
Qed.

Lemma columns_mask (mask : list bool) (df : DataFrame) :
  columns (mask_df mask df) = columns df.
Proof. unfold columns, mask_df. simpl. rewrite map_map. reflexivity. Qed.

Lemma columns_normalize env (df : DataFrame) :
  columns (normalize env df) = columns df.
Proof.
  unfold columns, normalize. simpl. rewrite map_map. apply map_ext.
  intros c. unfold normalize_column.
  destruct (is_object_dtype c).
  - destruct (pd_to_datetime env (col_values c)) as [[tz parsed] |]; simpl.
    + reflexivity.
    + unfold tz_localize_none.
      destruct (is_datetime64_any_dtype c); [| reflexivity].
      destruct (col_dtype c); reflexivity.
  - unfold tz_localize_none.
    destruct (is_datetime64_any_dtype c); [| reflexivity].
    destruct (col_dtype c); reflexivity.
Qed.

(** X1: whatever the viewer does, a frame the filter returns is the input
    (its normalised copy, once "Add filters" is ticked) under a boolean
    mask: the column labels and their order are those of the input, the
    index labels kept are in their original order, and there are never
    more rows than in the input. *)
Theorem filter_only_drops_rows :
  forall env ui df r,
    filter_dataframe env ui df = Ok r ->
    (exists mask,
        r = mask_df mask
              (if st_checkbox ui "Add filters" then normalize env df else df))
    /\ columns r = columns df
    /\ (exists mask, df_index r = select mask (df_index df))
    /\ (nrows r <= nrows df)%nat.
Proof.
  intros env ui df r Hrun.
  assert (Hmask : exists mask,
             r = mask_df mask (if st_checkbox ui "Add filters"
                               then normalize env df else df)).
  { unfold filter_dataframe in Hrun.
    destruct (st_checkbox ui "Add filters"); simpl in Hrun.
    - now apply filter_columns_masks in Hrun.
    - injection Hrun as <-. exists (keep_all df). symmetry.
      apply mask_df_keep_all. }
  split; [exact Hmask |]. destruct Hmask as [mask ->].
  split; [| split].
  - rewrite columns_mask. destruct (st_checkbox ui "Add filters");
      [apply columns_normalize | reflexivity].
  - exists mask. destruct (st_checkbox ui "Add filters"); reflexivity.
  - unfold nrows. destruct (st_checkbox ui "Add filters"); simpl;
      apply select_length_le.
Qed.

Lemma filter_only_drops_rows_witness :
  columns Sample.odd_pings = columns Sample.outpost
  /\ (nrows Sample.odd_pings <= nrows Sample.outpost)%nat.
Proof.
  destruct (filter_only_drops_rows (Example.env Sample.pings)
              (spec_ui ["PROBE"; "AVG_PING"] Sample.odd_specs)
              Sample.outpost Sample.odd_pings eq_refl)
    as [_ [Hcolumns [_ Hrows]]].
  split; assumption.
Defined.

(** ** What the normalisation pass keeps *)

Lemma tz_localize_none_naive (c : column) :
  naive (tz_localize_none c) = naive c || is_datetime64_any_dtype c.
Proof.
  destruct c as [name [| | [tz |] | |] values]; reflexivity.
Qed.

Lemma normalize_column_naive env (c : column) :
  naive (normalize_column env c) = true.
Proof.
  destruct c as [name [| | [tz |] | |] values]; unfold normalize_column; simpl;
    try reflexivity.
  destruct (pd_to_datetime env values) as [[tz parsed] |]; reflexivity.
Qed.

Lemma normalize_column_other env (c : column) :
  is_object_dtype c = false ->
  is_datetime64_any_dtype c = false ->
  normalize_column env c = c.
Proof. intros Hobj Hdt. unfold normalize_column. now rewrite Hobj, Hdt. Qed.

Lemma localize_naive (l : list cell) : map (localize_cell None) l = l.
Proof. rewrite <- (map_id l) at 2. apply map_ext. reflexivity. Qed.

Lemma normalize_column_idempotent env (c : column) :
  normalize_column env (normalize_column env c) = normalize_column env c.
Proof.
  destruct c as [name [| | tz | |] values];
    unfold normalize_column, tz_localize_none; simpl; try reflexivity.
  - now rewrite localize_naive.
  - destruct (pd_to_datetime env values) as [[tz parsed] |] eqn:Hparse; simpl.
    + now rewrite localize_naive.
    + now rewrite Hparse.
Qed.

(** X2: the normalisation pass keeps the column labels, their order and the
    index; it leaves every column that is neither object nor datetime as it
    is; after it no column carries a timezone; and running it on its own
    result changes nothing. *)
Theorem normalization_invariants :
  forall env df,
    columns (normalize env df) = columns df
    /\ df_index (normalize env df) = df_index df
    /\ forallb naive (df_columns (normalize env df)) = true
    /\ (forall c,
          is_object_dtype c = false ->
          is_datetime64_any_dtype c = false ->
          normalize_column env c = c)
    /\ normalize env (normalize env df) = normalize env df.
Proof.
  intros env df. split; [apply columns_normalize |].
  split; [reflexivity |]. split; [| split].
  - apply forallb_forall. intros c Hc. unfold normalize in Hc. simpl in Hc.
    apply in_map_iff in Hc as [c0 [<- _]]. apply normalize_column_naive.
  - intros c. apply normalize_column_other.
  - unfold normalize. simpl. f_equal. rewrite map_map. apply map_ext.
    intros c. apply normalize_column_idempotent.
Qed.

Lemma normalization_invariants_witness :
  normalize_column (Example.env Sample.pings) Sample.ten = Sample.ten.
Proof.
  destruct (normalization_invariants (Example.env Sample.pings) Sample.pings)
    as [_ [_ [_ [Hother _]]]].
  apply Hother; reflexivity.
Defined.

(** ** Row alignment *)

Lemma normalize_column_length env (c : column) :
  keeps_length env ->
  List.length (col_values (normalize_column env c))
  = List.length (col_values c).
Proof.
  intros Hkeeps.
  destruct c as [name [| | tz | |] values];
    unfold normalize_column, tz_localize_none; simpl; try reflexivity.
  - apply length_map.
  - destruct (pd_to_datetime env values) as [[tz parsed] |] eqn:Hparse; simpl;
      [| reflexivity].
    rewrite length_map. now apply (Hkeeps _ tz).
Qed.

Lemma normalize_well_formed env (df : DataFrame) :
  keeps_length env ->
  well_formed df = true ->
  well_formed (normalize env df) = true.
Proof.
  intros Hkeeps. unfold well_formed, normalize. simpl.
  rewrite !andb_true_iff, !forallb_forall. intros [Hu Hlen].
  split; [exact Hu |]. intros c Hc.
  apply in_map_iff in Hc as [c0 [<- Hc0]].
  rewrite normalize_column_length by exact Hkeeps. now apply Hlen.
Qed.

Lemma unique_labels_select (mask : list bool) (index : list Z) :
  unique_labels index = true -> unique_labels (select mask index) = true.
Proof.
  revert index. induction mask as [| b mask IH]; intros [| i index]; simpl;
    try reflexivity.
  rewrite andb_true_iff, negb_true_iff. intros [Hfresh Hrest].
  destruct b; simpl; [| now apply IH].
  rewrite (select_subset i mask index Hfresh). now apply IH.
Qed.

Lemma select_length_eq {A B : Type} (mask : list bool) (xs : list A)
  (ys : list B) :
  List.length xs = List.length ys ->
  List.length (select mask xs) = List.length (select mask ys).
Proof.
  revert xs ys. induction mask as [| b mask IH]; intros [| x xs] [| y ys];
    simpl; try reflexivity; try discriminate.
  intros [= Hlen]. specialize (IH xs ys Hlen). destruct b; simpl; lia.
Qed.

Lemma mask_well_formed (mask : list bool) (df : DataFrame) :
  well_formed df = true -> well_formed (mask_df mask df) = true.
Proof.
  unfold well_formed, mask_df. simpl.
  rewrite !andb_true_iff, !forallb_forall. intros [Hu Hlen]. split.
  - now apply unique_labels_select.
  - intros c Hc. apply in_map_iff in Hc as [c0 [<- Hc0]]. simpl.
    apply Nat.eqb_eq. apply select_length_eq. now apply Nat.eqb_eq, Hlen.
Qed.

(** X3: the filter keeps the row alignment of a frame.  When the input has
    no repeated index label and columns as long as its index, and
    pd.to_datetime returns as many values as it is given, then so has every
    frame the filter returns, whatever the viewer selects and enters. *)
Theorem filter_keeps_alignment :
  forall env ui df r,
    keeps_length env ->
    well_formed df = true ->
    filter_dataframe env ui df = Ok r ->
    well_formed r = true.
Proof.
  intros env ui df r Hkeeps Hwf Hrun. unfold filter_dataframe in Hrun.
  destruct (st_checkbox ui "Add filters"); simpl in Hrun.
  - apply filter_columns_masks in Hrun as [mask ->].
    apply mask_well_formed. now apply normalize_well_formed.
  - now injection Hrun as <-.
Qed.

Lemma parse_dates_length (l parsed : list cell) :
  Example.parse_dates l = Some parsed ->
  List.length parsed = List.length l.
Proof.
  revert parsed. induction l as [| x l IH]; intros parsed; simpl.
  - now intros [= <-].
  - destruct (match x with
              | CStr s => option_map CTime (Example.parse_date s)
              | CNum _ | CTime _ => None
              | _ => Some CNaT
              end) as [t |]; [| discriminate].
    destruct (Example.parse_dates l) as [ts |]; [| discriminate].
    intros [= <-]. simpl. now rewrite (IH ts).
Qed.

Lemma example_keeps_length (table : DataFrame) :
  keeps_length (Example.env table).
Proof.
  intros l tz parsed. simpl. unfold Example.to_datetime.
  destruct (Example.parse_dates l) as [ts |] eqn:Hp; [| discriminate].
  simpl. intros [= _ <-]. now apply parse_dates_length.
Qed.

Lemma filter_keeps_alignment_witness : well_formed Sample.odd_pings = true.
Proof.
  apply (filter_keeps_alignment (Example.env Sample.pings)
           (spec_ui ["PROBE"; "AVG_PING"] Sample.odd_specs)
           Sample.outpost Sample.odd_pings
           (example_keeps_length Sample.pings) eq_refl eq_refl).
Defined.

(** ** Labels and columns *)

Lemma in_columns_get (df : DataFrame) (name : string) :
  In name (columns df) <-> exists c, get_column df name = Some c.
Proof.
  unfold columns, get_column.
  induction (df_columns df) as [| c cols IH]; simpl.
  - split; [tauto | intros [c [=]]].
  - destruct (String.eqb_spec name (col_name c)) as [-> | Hne].
    + split; [intros _; now exists c | now left].
    + rewrite <- IH. split; [intros [Heq | Hin] | now right].
      * now elim Hne.
      * exact Hin.
Qed.

(** ** A frame without rows *)

Lemma empty_column_kind (c : column) :
  col_values c = [] -> column_kind c = Categorical.
Proof.
  intros Hempty. apply column_kind_categorical_iff. right.
  rewrite Hempty. vm_compute. lia.
Qed.

Lemma mask_df_empty (mask : list bool) (df : DataFrame) :
  df_index df = [] ->
  Forall (fun c => col_values c = []) (df_columns df) ->
  mask_df mask df = df.
Proof.
  intros Hindex Hcols. unfold mask_df. destruct df as [index cols].
  simpl in *. subst index. rewrite select_nil_r. f_equal.
  rewrite <- (map_id cols) at 2. apply map_ext_in. intros c Hc.
  apply mask_column_id. rewrite Forall_forall in Hcols.
  rewrite (Hcols c Hc). apply select_nil_r.
Qed.

(** X5: on a frame without rows no slider and no date picker is built.
    Every column has no distinct value, so each selected column takes the
    categorical branch, min() and max() are never evaluated, nothing is
    raised, and the (normalised) empty frame is returned. *)
Theorem filter_empty_frame :
  forall env ui df,
    st_checkbox ui "Add filters" = true ->
    df_index df = [] ->
    well_formed (normalize env df) = true ->
    Forall (fun name => In name (columns df))
           (st_multiselect_columns ui "Filter data on"
              (columns (normalize env df))) ->
    Forall (fun c => column_kind c = Categorical)
           (df_columns (normalize env df))
    /\ filter_dataframe env ui df = Ok (normalize env df).
Proof.
  intros env ui df Hon Hindex Hwf Hsel.
  assert (Hempty : Forall (fun c => col_values c = [])
                          (df_columns (normalize env df))).
  { apply Forall_forall. intros c Hc.
    pose proof (well_formed_length _ c Hwf Hc) as Hlen.
    change (df_index (normalize env df)) with (df_index df) in Hlen.
    rewrite Hindex in Hlen. now apply length_zero_iff_nil. }
  split.
  - apply Forall_forall. intros c Hc. apply empty_column_kind.
    rewrite Forall_forall in Hempty. now apply Hempty.
  - unfold filter_dataframe. rewrite Hon. simpl.
    rewrite <- (columns_normalize env df) in Hsel.
    assert (Hindex0 : df_index (normalize env df) = []) by exact Hindex.
    revert Hsel Hempty Hindex0.
    generalize (st_multiselect_columns ui "Filter data on"
                  (columns (normalize env df))) as selected.
    generalize (normalize env df) as d. intros d selected Hsel Hempty Hindex0.
    induction Hsel as [| name rest Hname _ IH]; simpl; [reflexivity |].
    apply in_columns_get in Hname as [c Hget].
    assert (Hkind : column_kind c = Categorical).
    { apply empty_column_kind. rewrite Forall_forall in Hempty.
      apply Hempty. now apply get_column_In with name. }
    rewrite (filter_column_categorical env ui d name c Hget Hkind).
    simpl. rewrite (mask_df_empty _ d Hindex0 Hempty). exact IH.
Qed.

Lemma filter_empty_frame_witness :
  filter_dataframe (Example.env Sample.pings)
    (default_ui ["END_DATE"; "AVG_PING"]) Sample.no_tests
  = Ok (normalize (Example.env Sample.pings) Sample.no_tests).
Proof.
  refine (proj2 (filter_empty_frame (Example.env Sample.pings)
                   (default_ui ["END_DATE"; "AVG_PING"]) Sample.no_tests
                   eq_refl eq_refl eq_refl _)).
  constructor; [now left |]. constructor; [right; now left | constructor].
Defined.

(** ** Kinds under filtering *)

Lemma filter_twice {A : Type} (P Q : A -> bool) (l : list A) :
  filter P (filter Q l) = filter (fun y => Q y && P y) l.
Proof.
  induction l as [| x l IH]; simpl; [reflexivity |].
  destruct (Q x); simpl; [destruct (P x) |]; now rewrite IH.
Qed.

Lemma filter_length_split {A : Type} (P Q : A -> bool) (l : list A) :
  List.length (filter P l)
  = (List.length (filter (fun y => negb (Q y) && P y) l)
     + List.length (filter (fun y => Q y && P y) l))%nat.
Proof.
  induction l as [| x l IH]; simpl; [reflexivity |].
  destruct (P x), (Q x); simpl; lia.
Qed.

Lemma filter_length_weaken {A : Type} (P Q : A -> bool) (l : list A) :
  (forall y, P y = true -> Q y = true) ->
  (List.length (filter P l) <= List.length (filter Q l))%nat.
Proof.
  intros Himp. induction l as [| x l IH]; simpl; [lia |].
  specialize (Himp x). destruct (P x), (Q x); simpl; lia.
Qed.

(** Among the distinct values at most one equals a given cell. *)
Lemma unique_once (x : cell) (l : list cell) :
  (List.length (filter (cell_eqb x) (unique l)) <= 1)%nat.
Proof.
  induction l as [| h t IH]; simpl; [lia |].
  rewrite filter_twice. destruct (cell_eqb x h) eqn:Hxh; simpl.
  - assert (Hnone : forall u,
              filter (fun y => negb (cell_eqb h y) && cell_eqb x y) u = []).
    { induction u as [| y u IHu]; simpl; [reflexivity |].
      destruct (cell_eqb h y) eqn:Hhy; simpl; [exact IHu |].
      destruct (cell_eqb x y) eqn:Hxy; [| exact IHu].
      rewrite (cell_eqb_sym x h) in Hxh.
      rewrite (cell_eqb_trans h x y Hxh Hxy) in Hhy. discriminate. }
    rewrite Hnone. simpl. lia.
  - etransitivity; [| exact IH].
    apply filter_length_weaken. intros y Hy.
    now apply andb_true_iff in Hy as [_ Hy].
Qed.

(** Dropping rows cannot add a distinct value. *)
Lemma distinct_after_mask (l : list cell) :
  forall (P : cell -> bool) (mask : list bool),
    respects P ->
    (List.length (filter P (unique (select mask l)))
     <= List.length (filter P (unique l)))%nat.
Proof.
  induction l as [| x r IH]; intros P mask HP.
  - rewrite select_nil_r. simpl. lia.
  - destruct mask as [| b mask]; [simpl; lia |].
    assert (HP' : respects (fun y => negb (cell_eqb x y) && P y)).
    { intros y z Hyz. rewrite (HP y z Hyz). f_equal. f_equal.
      apply eq_true_iff_eq. split; intros H.
      - now apply cell_eqb_trans with y.
      - apply cell_eqb_trans with z; [exact H |].
        now rewrite cell_eqb_sym. }
    specialize (IH _ mask HP').
    simpl unique at 2. simpl filter at 2. rewrite filter_twice.
    destruct b.
    + simpl. rewrite filter_twice. destruct (P x); simpl; lia.
    + change (select (false :: mask) (x :: r)) with (select mask r).
      rewrite (filter_length_split P (cell_eqb x)).
      assert (Hone : (List.length
                        (filter (fun y => cell_eqb x y && P y)
                                (unique (select mask r)))
                      <= if P x then 1 else 0)%nat).
      { destruct (P x) eqn:HPx.
        - etransitivity; [| apply (unique_once x)].
          apply filter_length_weaken. intros y Hy.
          now apply andb_true_iff in Hy as [Hy _].
        - assert (Hnil : forall u,
                    filter (fun y => cell_eqb x y && P y) u = []).
          { induction u as [| y u IHu]; simpl; [reflexivity |].
            destruct (cell_eqb x y) eqn:Hxy; simpl; [| exact IHu].
            rewrite <- (HP x y Hxy), HPx. exact IHu. }
          rewrite Hnil. simpl. lia. }
      destruct (P x); simpl; lia.
Qed.

Lemma filter_select {A : Type} (P : A -> bool) (mask : list bool)
  (l : list A) :
  exists mask', filter P (select mask l) = select mask' (filter P l).
Proof.
  revert l. induction mask as [| b mask IH]; intros [| x l]; simpl;
    try (exists []; reflexivity).
  destruct (IH l) as [m' Hm']. destruct b; simpl.
  - destruct (P x); [exists (true :: m') | exists m']; simpl;
      now rewrite Hm'.
  - destruct (P x); [exists (false :: m') | exists m']; simpl;
      now rewrite Hm'.
Qed.

Lemma nunique_after_mask (mask : list bool) (l : list cell) :
  (nunique (select mask l) <= nunique l)%nat.
Proof.
  unfold nunique. destruct (filter_select notna mask l) as [m' ->].
  pose proof (distinct_after_mask (filter notna l) (fun _ => true) m') as H.
  assert (Hall : forall u : list cell, filter (fun _ => true) u = u).
  { induction u as [| y u IHu]; simpl; [reflexivity | now rewrite IHu]. }
  rewrite !Hall in H. apply H. intros x y _. reflexivity.
Qed.

(** Under any mask a categorical column stays categorical, and a numeric,
    temporal or textual column keeps its kind or becomes categorical. *)
Lemma column_kind_after_mask :
  forall mask c,
    (column_kind c = Categorical ->
     column_kind (mask_column mask c) = Categorical)
    /\ (column_kind (mask_column mask c) = column_kind c
        \/ column_kind (mask_column mask c) = Categorical).
Proof.
  intros mask c.
  assert (Hstays : column_kind c = Categorical ->
                   column_kind (mask_column mask c) = Categorical).
  { rewrite !column_kind_categorical_iff. intros [Hcat | Hfew].
    - left. exact Hcat.
    - right. simpl. pose proof (nunique_after_mask mask (col_values c)). lia. }
  split; [exact Hstays |].
  destruct (column_kind c) eqn:Hkind.
  - left. now apply Hstays.
  - unfold column_kind in *. simpl.
    change (is_categorical_dtype (mask_column mask c))
      with (is_categorical_dtype c).
    change (is_numeric_dtype (mask_column mask c)) with (is_numeric_dtype c).
    destruct (is_categorical_dtype c); [discriminate |]. simpl in *.
    destruct (nunique (select mask (col_values c)) <? 10)%nat; [now right |].
    left. destruct (nunique (col_values c) <? 10)%nat; [discriminate |].
    destruct (is_numeric_dtype c); [reflexivity |].
    destruct (is_datetime64_any_dtype c); discriminate.
  - unfold column_kind in *. simpl.
    change (is_categorical_dtype (mask_column mask c))
      with (is_categorical_dtype c).
    change (is_numeric_dtype (mask_column mask c)) with (is_numeric_dtype c).
    change (is_datetime64_any_dtype (mask_column mask c))
      with (is_datetime64_any_dtype c).
    destruct (is_categorical_dtype c); [discriminate |]. simpl in *.
    destruct (nunique (select mask (col_values c)) <? 10)%nat; [now right |].
    left. destruct (nunique (col_values c) <? 10)%nat; [discriminate |].
    destruct (is_numeric_dtype c); [discriminate |].
    destruct (is_datetime64_any_dtype c); [reflexivity | discriminate].
  - unfold column_kind in *. simpl.
    change (is_categorical_dtype (mask_column mask c))
      with (is_categorical_dtype c).
    change (is_numeric_dtype (mask_column mask c)) with (is_numeric_dtype c).
    change (is_datetime64_any_dtype (mask_column mask c))
      with (is_datetime64_any_dtype c).
    destruct (is_categorical_dtype c); [discriminate |]. simpl in *.
    destruct (nunique (select mask (col_values c)) <? 10)%nat; [now right |].
    left. destruct (nunique (col_values c) <? 10)%nat; [discriminate |].
    destruct (is_numeric_dtype c); [discriminate |].
    destruct (is_datetime64_any_dtype c); [discriminate | reflexivity].
Qed.

(** X6: filtering moves a column's kind only towards categorical.  In any
    frame the filter returns with "Add filters" ticked, each column of the
    normalised input is still there under its label; a categorical column
    is still categorical, and a numeric, temporal or textual column has
    kept its kind or has become categorical (fewer than 10 distinct values
    are left), never anything else. *)
Theorem kind_after_filter :
  forall env ui df r name c,
    st_checkbox ui "Add filters" = true ->
    filter_dataframe env ui df = Ok r ->
    get_column (normalize env df) name = Some c ->
    exists c',
      get_column r name = Some c'
      /\ col_dtype c' = col_dtype c
      /\ (column_kind c = Categorical -> column_kind c' = Categorical)
      /\ (column_kind c' = column_kind c \/ column_kind c' = Categorical).
Proof.
  intros env ui df r name c Hon Hrun Hget.
  unfold filter_dataframe in Hrun. rewrite Hon in Hrun. simpl in Hrun.
  apply filter_columns_masks in Hrun as [mask ->].
  exists (mask_column mask c). rewrite get_column_mask, Hget.
  split; [reflexivity |]. split; [reflexivity |].
  apply column_kind_after_mask.
Qed.

Lemma kind_after_filter_witness :
  exists c',
    get_column Sample.odd_pings "AVG_PING" = Some c'
    /\ col_dtype c' = Numeric
    /\ (column_kind c' = Numerical \/ column_kind c' = Categorical).
Proof.
  destruct (kind_after_filter (Example.env Sample.pings)
              (spec_ui ["PROBE"; "AVG_PING"] Sample.odd_specs)
              Sample.outpost Sample.odd_pings "AVG_PING"
              (Sample.num_column "AVG_PING" [1; 2; 3; 4; 5; 6; 7; 8; 9; 10]%Z)
              eq_refl eq_refl eq_refl) as (c' & Hget & Hty & _ & Hkind).
  exists c'. split; [exact Hget |]. split; [exact Hty |]. exact Hkind.
Defined.

(** ** The slider of the numeric branch *)

Lemma unique_In (y : cell) (l : list cell) : In y (unique l) -> In y l.
Proof.
  induction l as [| x r IH]; simpl; [tauto |].
  intros [-> | Hin]; [now left |].
  right. apply IH. now apply filter_In in Hin as [Hin _].
Qed.

Lemma two_distinct (l : list cell) :
  (2 <= List.length (unique l))%nat ->
  exists x y, In x l /\ In y l /\ cell_eqb x y = false.
Proof.
  destruct l as [| x r]; simpl; [lia |].
  destruct (filter (fun y => negb (cell_eqb x y)) (unique r)) as [| y u] eqn:Hf;
    simpl; [lia |].
  intros _.
  assert (Hy : In y (filter (fun y => negb (cell_eqb x y)) (unique r))).
  { rewrite Hf. now left. }
  apply filter_In in Hy as [Hy Hne]. exists x, y.
  split; [now left |]. split; [right; now apply unique_In |].
  now apply negb_true_iff in Hne.
Qed.

Lemma numeric_notna (l : list cell) (x : cell) :
  numeric_cells l = true -> In x (filter notna l) ->
  exists q, x = CNum q /\ In (CNum q) l.
Proof.
  unfold numeric_cells. rewrite forallb_forall. intros Hnum Hin.
  apply filter_In in Hin as [Hin Hna]. specialize (Hnum x Hin).
  destruct x; try discriminate. now exists q.
Qed.

Lemma float64_numeric (l : list cell) :
  float64_cells l = true -> numeric_cells l = true.
Proof.
  unfold float64_cells, numeric_cells. rewrite !forallb_forall.
  intros H x Hx. specialize (H x Hx). now destruct x.
Qed.

Lemma float64_In (l : list cell) (q : Q) :
  float64_cells l = true -> In (CNum q) l -> ordinary_float q = true.
Proof.
  unfold float64_cells. rewrite forallb_forall.
  intros H Hin. exact (H _ Hin).
Qed.

(** The minimum and the maximum are numbers of the column. *)
Lemma num_min_In (l : list cell) (m : Q) :
  num_min l = Some m -> In (CNum m) l.
Proof.
  revert m. induction l as [| h r IH]; simpl; [discriminate |].
  intros m. destruct h; try (intros H; right; now apply IH).
  destruct (num_min r) as [m' |].
  - intros [= <-]. unfold Qmin_b. destruct (Qle_bool q m');
      [now left | right; now apply IH].
  - intros [= <-]. now left.
Qed.

Lemma num_max_In (l : list cell) (m : Q) :
  num_max l = Some m -> In (CNum m) l.
Proof.
  revert m. induction l as [| h r IH]; simpl; [discriminate |].
  intros m. destruct h; try (intros H; right; now apply IH).
  destruct (num_max r) as [m' |].
  - intros [= <-]. unfold Qmax_b. destruct (Qle_bool q m');
      [right; now apply IH | now left].
  - intros [= <-]. now left.
Qed.

(** X7: on a float64 column of ordinary magnitude (an int64 column of at
    most 53 bits is one), whenever the slider of the numeric branch is
    built its range is a proper one.  A column takes that branch with 10
    or more distinct values, so the minimum and the maximum of its numbers
    exist; they are numbers of the column, of ordinary magnitude like the
    rest, so that [float] hands them to the slider as they are; the
    minimum is strictly below the maximum, and (max - min) / 100, which
    the step is up to rounding, is positive. *)
Theorem slider_range_proper :
  forall c,
    column_kind c = Numerical ->
    float64_cells (col_values c) = true ->
    exists lo hi step,
      num_min (col_values c) = Some lo
      /\ num_max (col_values c) = Some hi
      /\ slider_step (num_max (col_values c)) (num_min (col_values c))
         = Some step
      /\ ordinary_float lo = true /\ ordinary_float hi = true
      /\ (lo < hi)%Q /\ (0 < step)%Q.
Proof.
  intros c Hkind Hfloat.
  pose proof (float64_numeric _ Hfloat) as Hnum.
  assert (Hmany : (10 <= nunique (col_values c))%nat).
  { unfold column_kind in Hkind.
    destruct (Nat.ltb_spec (nunique (col_values c)) 10) as [Hlt | Hge];
      [| exact Hge].
    rewrite orb_true_r in Hkind. discriminate. }
  unfold nunique in Hmany.
  destruct (two_distinct (filter notna (col_values c))) as (x & y & Hx & Hy & Hxy);
    [lia |].
  apply (numeric_notna _ _ Hnum) in Hx as (p & -> & Hp).
  apply (numeric_notna _ _ Hnum) in Hy as (q & -> & Hq).
  simpl in Hxy.
  destruct (num_min_le _ _ Hp) as (lo & Hlo & Hlop).
  destruct (num_max_ge _ _ Hp) as (hi & Hhi & Hphi).
  destruct (num_min_le _ _ Hq) as (lo' & Hlo' & Hloq).
  destruct (num_max_ge _ _ Hq) as (hi' & Hhi' & Hqhi).
  rewrite Hlo in Hlo'. injection Hlo' as <-.
  rewrite Hhi in Hhi'. injection Hhi' as <-.
  apply Qle_bool_iff in Hlop, Hphi, Hloq, Hqhi.
  assert (Hlt : (lo < hi)%Q).
  { destruct (Qlt_le_dec lo hi) as [Hlt | Hle]; [exact Hlt |].
    assert (Heq : (p == q)%Q) by lra.
    apply Qeq_bool_iff in Heq. congruence. }
  exists lo, hi, ((hi - lo) / 100)%Q. rewrite Hlo, Hhi.
  split; [reflexivity |]. split; [reflexivity |]. split; [reflexivity |].
  split; [apply (float64_In _ _ Hfloat), num_min_In, Hlo |].
  split; [apply (float64_In _ _ Hfloat), num_max_In, Hhi |].
  split; [exact Hlt |].
  apply Qlt_shift_div_l; lra.
Qed.

Lemma slider_range_proper_witness :
  exists lo hi step,
    num_min (col_values Sample.ten) = Some lo
    /\ num_max (col_values Sample.ten) = Some hi
    /\ slider_step (num_max (col_values Sample.ten))
                   (num_min (col_values Sample.ten)) = Some step
    /\ ordinary_float lo = true /\ ordinary_float hi = true
    /\ (lo < hi)%Q /\ (0 < step)%Q.
Proof.
  apply (slider_range_proper Sample.ten); reflexivity.
Defined.

(** ** Unselecting a value *)

Lemma cell_eqb_congr (v x h : cell) :
  cell_eqb x h = true -> cell_eqb v x = cell_eqb v h.
Proof.
  intros Hxh. apply eq_true_iff_eq. split; intros H.
  - now apply cell_eqb_trans with x.
  - apply cell_eqb_trans with h; [exact H | now rewrite cell_eqb_sym].
Qed.

Lemma isin_without (v x : cell) (chosen : list cell) :
  isin (filter (fun y => negb (cell_eqb v y)) chosen) x
  = isin chosen x && negb (cell_eqb v x).
Proof.
  unfold isin. induction chosen as [| h rest IH]; simpl; [reflexivity |].
  destruct (cell_eqb v h) eqn:Hvh; simpl; rewrite IH;
    destruct (cell_eqb x h) eqn:Hxh; simpl; try reflexivity;
    rewrite (cell_eqb_congr v x h Hxh), Hvh; simpl; try reflexivity.
  apply andb_false_r.
Qed.

Lemma mask_and_map {A : Type} (f g : A -> bool) (l : list A) :
  mask_and (map f l) (map g l) = map (fun x => f x && g x) l.
Proof. induction l as [| x l IH]; simpl; [reflexivity | now rewrite IH]. Qed.

(** X8: on a categorical column, taking one value out of the selection
    removes exactly the rows whose cell in that column equals the value:
    the frame returned is the one returned before, without those rows, and
    every other row stays in place. *)
Theorem unselect_one_value :
  forall env ui1 ui2 df name c v,
    get_column df name = Some c ->
    column_kind c = Categorical ->
    st_multiselect ui2 (Py.fstring ["Values for "; name])
      (unique (col_values c)) (unique (col_values c))
    = filter (fun y => negb (cell_eqb v y))
        (st_multiselect ui1 (Py.fstring ["Values for "; name])
           (unique (col_values c)) (unique (col_values c))) ->
    exists r1 r2 c1,
      filter_column env ui1 df name = Ok r1
      /\ filter_column env ui2 df name = Ok r2
      /\ get_column r1 name = Some c1
      /\ r2 = mask_df (map (fun x => negb (cell_eqb v x)) (col_values c1)) r1.
Proof.
  intros env ui1 ui2 df name c v Hget Hkind Hless.
  rewrite (filter_column_categorical env ui1 df name c Hget Hkind).
  rewrite (filter_column_categorical env ui2 df name c Hget Hkind).
  rewrite Hless.
  set (chosen := st_multiselect ui1 _ _ _).
  eexists. eexists. exists (mask_column (map (isin chosen) (col_values c)) c).
  split; [reflexivity |]. split; [reflexivity |].
  split; [rewrite get_column_mask, Hget; reflexivity |].
  simpl col_values. rewrite mask_df_both, mask_and_map. f_equal.
  apply map_ext. intros x. apply isin_without.
Qed.

Lemma unselect_one_value_witness :
  exists r1 r2 c1,
    filter_column (Example.env Sample.pings)
      (spec_ui ["AVG_PING"]
         (fun _ => SpecCategorical
                     (map (fun z => CNum (inject_Z z)) [0; 1]%Z)))
      Sample.retried "RETRIES" = Ok r1
    /\ filter_column (Example.env Sample.pings)
         (spec_ui ["AVG_PING"]
            (fun _ => SpecCategorical
                        (map (fun z => CNum (inject_Z z)) [0]%Z)))
         Sample.retried "RETRIES" = Ok r2
    /\ get_column r1 "RETRIES" = Some c1
    /\ r2 = mask_df (map (fun x => negb (cell_eqb (CNum (inject_Z 1)) x))
                         (col_values c1)) r1.
Proof.
  apply (unselect_one_value (Example.env Sample.pings) _ _ Sample.retried
           "RETRIES"
           (Sample.num_column "RETRIES" [0; 0; 0; 0; 0; 0; 0; 0; 0; 1]%Z));
    reflexivity.
Defined.

(** ** The date range of the temporal branch *)

Lemma between_dates (d1 d2 : date) (x : cell) :
  between_time (to_datetime_date d1) (to_datetime_date d2) x
  = in_date_range d1 d2 x.
Proof.
  destruct x; try reflexivity. simpl.
  unfold date_of, to_datetime_date, ns_per_day.
  apply eq_true_iff_eq.
  rewrite !andb_true_iff, orb_true_iff, !Z.leb_le, Z.ltb_lt, Z.eqb_eq.
  pose proof (Z.div_mod t 86400000000000 ltac:(lia)) as Hdiv.
  pose proof (Z.mod_pos_bound t 86400000000000 ltac:(lia)) as Hmod.
  lia.
Qed.

Lemma date_range_filter_core env ui df name c d1 d2 :
  get_column df name = Some c ->
  column_kind c = Temporal ->
  st_date_input ui (Py.fstring ["Values for "; name])
    (time_min (col_values c), time_max (col_values c)) = [d1; d2] ->
  exists r,
    filter_column env ui df name = Ok r
    /\ r = mask_df (map (in_date_range d1 d2) (col_values c)) df.
Proof.
  intros Hget Hkind Hpicked. unfold filter_column.
  rewrite Hget, Hkind, Hpicked. eexists. split; [reflexivity |].
  f_equal. apply map_ext. apply between_dates.
Qed.

Lemma timestamp_day_midnight (d : date) :
  timestamp_day d = true ->
  (- 2 ^ 63 <= to_datetime_date d < 2 ^ 63)%Z.
Proof.
  unfold timestamp_day, to_datetime_date, ns_per_day.
  rewrite andb_true_iff, !Z.leb_le. lia.
Qed.

(** X9: the range picked in the date input is read as two midnights.  With
    two dates picked, each a day between 1677-09-22 and 2262-04-11 (the
    days whose midnight is a nanosecond timestamp, which [pd.to_datetime]
    takes), the temporal branch keeps the timestamps of the days from the
    first date up to but not including the second, and of the second date
    only midnight itself; missing timestamps are dropped.  With fewer or
    more than two dates picked the frame is returned as it is. *)
Theorem date_range_filter :
  forall env ui df name c,
    get_column df name = Some c ->
    column_kind c = Temporal ->
    let picked :=
      st_date_input ui (Py.fstring ["Values for "; name])
        (time_min (col_values c), time_max (col_values c)) in
    (forall d1 d2,
        picked = [d1; d2] ->
        timestamp_day d1 = true ->
        timestamp_day d2 = true ->
        (- 2 ^ 63 <= to_datetime_date d1 < 2 ^ 63)%Z
        /\ (- 2 ^ 63 <= to_datetime_date d2 < 2 ^ 63)%Z
        /\ filter_column env ui df name
           = Ok (mask_df (map (in_date_range d1 d2) (col_values c)) df))
    /\ (List.length picked <> 2%nat -> filter_column env ui df name = Ok df).
Proof.
  intros env ui df name c Hget Hkind picked.
  unfold filter_column. rewrite Hget, Hkind. fold picked. split.
  - intros d1 d2 -> Hd1 Hd2.
    split; [now apply timestamp_day_midnight |].
    split; [now apply timestamp_day_midnight |].
    f_equal. f_equal. apply map_ext. apply between_dates.
  - destruct picked as [| d1 [| d2 [| d3 rest]]]; simpl; try reflexivity.
    intros H. now elim H.
Qed.

Lemma date_range_filter_witness :
  filter_column (Example.env Sample.pings) (default_ui ["END_DATE"])
    Sample.speed_tests "END_DATE"
  = Ok (mask_df (map (in_date_range 19723%Z 19732%Z)
                     (map (fun d => CTime (Sample.noon d))
                          [19723; 19724; 19725; 19726; 19727;
                           19728; 19729; 19730; 19731; 19732]%Z))
                Sample.speed_tests).
Proof.
  destruct (date_range_filter (Example.env Sample.pings)
              (default_ui ["END_DATE"]) Sample.speed_tests "END_DATE"
              {| col_name := "END_DATE"; col_dtype := Datetime64 None;
                 col_values := map (fun d => CTime (Sample.noon d))
                                   [19723; 19724; 19725; 19726; 19727;
                                    19728; 19729; 19730; 19731; 19732]%Z |}
              eq_refl eq_refl) as [Hrange _].
  apply (Hrange 19723%Z 19732%Z); reflexivity.
Defined.

(** ** The generator tab *)

(** X10: what the generator tab renders.  Nothing until the button is
    pressed; then "SSID is required!" for an empty SSID, whatever else was
    entered; then the password message for a protected network without a
    password; otherwise the code.  So a code is generated exactly for a
    non-empty SSID with either OPEN or a non-empty password, and its
    payload carries an empty password exactly when the network is OPEN. *)
Theorem tab2_outcomes :
  forall ui,
    let pressed := st_button ui "Generate QR Code" in
    let ssid := Wifi.tab2_ssid ui in
    let authentication := Wifi.tab2_authentication ui in
    let typed := st_text_input ui "Password" in
    (Wifi.tab2 ui = Wifi.Nothing <-> pressed = false)
    /\ (pressed = true -> ssid = "" ->
        Wifi.tab2 ui = Wifi.StError "SSID is required!")
    /\ (pressed = true -> ssid <> "" -> authentication <> "OPEN" ->
        typed = "" ->
        Wifi.tab2 ui
        = Wifi.StError "Password is required for selected authentication!")
    /\ (forall img,
          Wifi.tab2 ui = Wifi.QrCode img
          <-> pressed = true /\ ssid <> ""
              /\ (authentication = "OPEN" \/ typed <> "")
              /\ img = Wifi.generate_wifi_qr ssid authentication
                         (Wifi.tab2_password ui) (Wifi.tab2_hidden ui))
    /\ (forall img,
          Wifi.tab2 ui = Wifi.QrCode img ->
          (Wifi.tab2_password ui = "" <-> authentication = "OPEN")).
Proof.
  intros ui pressed ssid authentication typed.
  unfold Wifi.tab2, Wifi.tab2_password.
  fold pressed ssid authentication typed.
  destruct pressed, ssid as [| c s];
    destruct (String.eqb_spec authentication "OPEN") as [Hopen | Hprotected];
    destruct typed as [| c' s']; simpl;
    repeat split; intros; try discriminate; try reflexivity; try tauto;
    try congruence;
    repeat match goal with
           | H : _ /\ _ |- _ => destruct H
           | H : _ \/ _ |- _ => destruct H
           end;
    try discriminate; try congruence; try tauto;
    try (left; assumption); try (right; discriminate).
Qed.

Lemma tab2_outcomes_witness :
  Wifi.tab2_password Sample.open_ui = ""
  <-> Wifi.tab2_authentication Sample.open_ui = "OPEN".
Proof.
  destruct (tab2_outcomes Sample.open_ui) as [_ [_ [_ [_ Hpassword]]]].
  apply (Hpassword (Wifi.generate_wifi_qr "MyNet" "OPEN" "" false)).
  reflexivity.
Defined.

(** ** The payload, read back *)

Lemma wifi_string_eq (ssid authentication password : string) (hidden : bool) :
  Wifi.wifi_string ssid authentication password hidden
  = "WIFI:T:" ++ authentication ++ ";S:" ++ ssid ++ ";P:" ++ password
    ++ ";H:" ++ (if hidden then "true" else "false") ++ ";;".
Proof. reflexivity. Qed.

Lemma split_at_semicolon (x x' r r' : string) :
  no_semicolon x = true -> no_semicolon x' = true ->
  x ++ String ";" r = x' ++ String ";" r' ->
  x = x' /\ r = r'.
Proof.
  unfold no_semicolon. revert x'.
  induction x as [| c x IH]; intros [| c' x']; simpl.
  - intros _ _ [= ->]. now split.
  - rewrite andb_true_iff, negb_true_iff. intros _ [Hc _] [= <-].
    discriminate.
  - rewrite andb_true_iff, negb_true_iff. intros [Hc _] _ [= ->].
    discriminate.
  - rewrite !andb_true_iff. intros [_ Hx] [_ Hx'] [= -> Htail].
    destruct (IH x' Hx Hx' Htail) as [-> ->]. now split.
Qed.

(** X11: the payload can be read back when no field holds a semicolon: two
    credentials whose authentication kind, SSID and password are free of
    semicolons and that give the same payload are the same credentials,
    hidden flag included. *)
Theorem payload_determines_fields :
  forall ssid authentication password hidden
         ssid' authentication' password' hidden',
    no_semicolon authentication = true ->
    no_semicolon ssid = true ->
    no_semicolon password = true ->
    no_semicolon authentication' = true ->
    no_semicolon ssid' = true ->
    no_semicolon password' = true ->
    Wifi.wifi_string ssid authentication password hidden
    = Wifi.wifi_string ssid' authentication' password' hidden' ->
    authentication = authentication' /\ ssid = ssid'
    /\ password = password' /\ hidden = hidden'.
Proof.
  intros s a p h s' a' p' h' Ha Hs Hp Ha' Hs' Hp' Heq.
  rewrite !wifi_string_eq in Heq. simpl in Heq.
  injection Heq as Heq.
  apply split_at_semicolon in Heq as [-> Heq]; try assumption.
  injection Heq as Heq.
  apply split_at_semicolon in Heq as [-> Heq]; try assumption.
  injection Heq as Heq.
  apply split_at_semicolon in Heq as [-> Heq]; try assumption.
  repeat split. destruct h, h'; try reflexivity; discriminate.
Qed.

Lemma payload_determines_fields_witness :
  "WPA2-PSK" = "WPA2-PSK" /\ "MyNet" = "MyNet" /\ "hunter2" = "hunter2"
  /\ true = true.
Proof.
  apply (payload_determines_fields "MyNet" "WPA2-PSK" "hunter2" true
           "MyNet" "WPA2-PSK" "hunter2" true); reflexivity.
Defined.

Lemma length_append (a b : string) :
  String.length (a ++ b) = (String.length a + String.length b)%nat.
Proof. induction a as [| c a IH]; simpl; [reflexivity | now rewrite IH]. Qed.

(** X12: the encoder escapes nothing.  A semicolon in a field is copied as
    it is, so different credentials can give the same payload: the SSID
    s;P:p with password x, and the SSID s with password p;P:x. *)
Theorem payload_not_escaped :
  forall ssid authentication p x hidden,
    Wifi.wifi_string (ssid ++ ";P:" ++ p) authentication x hidden
    = Wifi.wifi_string ssid authentication (p ++ ";P:" ++ x) hidden
    /\ ssid ++ ";P:" ++ p <> ssid.
Proof.
  intros s a p x h. split.
  - rewrite !wifi_string_eq. repeat rewrite append_assoc. reflexivity.
  - intros Heq. apply (f_equal String.length) in Heq.
    rewrite !length_append in Heq. simpl in Heq. lia.
Qed.

(** ** The string form of an identifier *)

Lemma all_chars_append (p : ascii -> bool) (a b : string) :
  all_chars p (a ++ b) = all_chars p a && all_chars p b.
Proof.
  induction a as [| c a IH]; simpl; [reflexivity |].
  now rewrite IH, andb_assoc.
Qed.

Lemma all_chars_weaken (p q : ascii -> bool) (s : string) :
  (forall c, p c = true -> q c = true) ->
  all_chars p s = true -> all_chars q s = true.
Proof.
  intros Hpq. induction s as [| c s IH]; simpl; [reflexivity |].
  rewrite !andb_true_iff. intros [Hc Hs]. split; [now apply Hpq | now apply IH].
Qed.

Lemma all_chars_substring (p : ascii -> bool) (s : string) :
  all_chars p s = true ->
  forall n m, all_chars p (substring n m s) = true.
Proof.
  induction s as [| c s IH]; intros Hs n m.
  - destruct n, m; reflexivity.
  - simpl in Hs. apply andb_true_iff in Hs as [Hc Hs].
    destruct n as [| n].
    + destruct m as [| m]; simpl; [reflexivity |].
      rewrite Hc. now apply IH.
    + simpl. now apply IH.
Qed.

Lemma length_substring (s : string) :
  forall n m,
    (n + m <= String.length s)%nat -> String.length (substring n m s) = m.
Proof.
  induction s as [| c s IH]; intros n m Hlen; simpl in Hlen.
  - assert (n = 0 /\ m = 0)%nat as [-> ->] by lia. reflexivity.
  - destruct n as [| n].
    + destruct m as [| m]; simpl; [reflexivity |].
      rewrite (IH 0%nat m); [reflexivity | lia].
    + simpl. apply IH. lia.
Qed.

Lemma hex_char_facts (d : Z) :
  (0 <= d < 16)%Z ->
  hex_lower (Uuid.hex_char d) = true
  /\ Uuid.hex_value (Uuid.hex_char d) = Some d
  /\ Ascii.eqb (Uuid.hex_char d) "_" = false.
Proof.
  intros Hd.
  assert (d = 0 \/ d = 1 \/ d = 2 \/ d = 3 \/ d = 4 \/ d = 5 \/ d = 6
          \/ d = 7 \/ d = 8 \/ d = 9 \/ d = 10 \/ d = 11 \/ d = 12
          \/ d = 13 \/ d = 14 \/ d = 15)%Z as Hcases by lia.
  repeat (destruct Hcases as [-> | Hcases]; [repeat split |]).
  subst d. repeat split.
Qed.

Lemma hex_digits_facts (v : Z) (n : nat) :
  String.length (Uuid.hex_digits n v) = n
  /\ all_chars hex_lower (Uuid.hex_digits n v) = true.
Proof.
  induction n as [| n [IHlen IHall]]; simpl; [now split |].
  split; [now rewrite IHlen |].
  rewrite IHall, andb_true_r.
  apply hex_char_facts. apply Z.mod_pos_bound. lia.
Qed.

Lemma hex_lower_canonical (c : ascii) :
  hex_lower c = true -> canonical_char c = true.
Proof.
  unfold hex_lower, canonical_char, Py.in_chars. simpl.
  rewrite !orb_true_iff. tauto.
Qed.

Lemma str_pieces (u : Uuid.UUID) :
  let hex := Uuid.hex_digits 32 (Uuid.int u) in
  Uuid.str u
  = substring 0 8 hex ++ "-" ++ substring 8 4 hex ++ "-"
    ++ substring 12 4 hex ++ "-" ++ substring 16 4 hex ++ "-"
    ++ substring 20 12 hex.
Proof. reflexivity. Qed.

(** The string form has 36 characters, lowercase hex digits and dashes. *)
Lemma str_canonical (u : Uuid.UUID) :
  String.length (Uuid.str u) = 36%nat
  /\ all_chars canonical_char (Uuid.str u) = true.
Proof.
  rewrite str_pieces. cbv zeta.
  destruct (hex_digits_facts (Uuid.int u) 32) as [Hlen Hall].
  set (hex := Uuid.hex_digits 32 (Uuid.int u)) in *.
  assert (Hcanon : all_chars canonical_char hex = true).
  { revert Hall. apply all_chars_weaken, hex_lower_canonical. }
  split.
  - rewrite !length_append, !length_substring by (rewrite Hlen; lia).
    reflexivity.
  - rewrite !all_chars_append, !all_chars_substring by exact Hcanon.
    reflexivity.
Qed.

(** ** Entering the string form again *)

Lemma remove_absent (c0 : ascii) (rest s : string) :
  all_chars (fun c => negb (Ascii.eqb c0 c)) s = true ->
  Py.remove_all (String c0 rest) s = s.
Proof.
  unfold Py.remove_all. induction s as [| c s IH]; [reflexivity |].
  cbn -[Ascii.eqb]. rewrite andb_true_iff, negb_true_iff. intros [-> Hs].
  cbn -[Ascii.eqb]. now rewrite IH.
Qed.

Lemma canonical_no_u (c : ascii) :
  canonical_char c = true -> negb (Ascii.eqb "u" c) = true.
Proof.
  destruct c as [[] [] [] [] [] [] [] []]; try discriminate; reflexivity.
Qed.

Lemma canonical_no_brace (c : ascii) :
  canonical_char c = true -> negb (Py.in_chars c "{}") = true.
Proof.
  destruct c as [[] [] [] [] [] [] [] []]; try discriminate; reflexivity.
Qed.

Lemma hex_lower_no_dash (c : ascii) :
  hex_lower c = true -> negb (Ascii.eqb "-" c) = true.
Proof.
  destruct c as [[] [] [] [] [] [] [] []]; try discriminate; reflexivity.
Qed.

Lemma hex_lower_no_space (c : ascii) :
  hex_lower c = true -> negb (Uuid.is_space c) = true.
Proof.
  destruct c as [[] [] [] [] [] [] [] []]; try discriminate; reflexivity.
Qed.

Lemma all_chars_list (p : ascii -> bool) (s : string) :
  all_chars p s = forallb p (list_ascii_of_string s).
Proof. induction s as [| c s IH]; simpl; [reflexivity | now rewrite IH]. Qed.

Lemma all_chars_rev (p : ascii -> bool) (s : string) :
  all_chars p (Py.rev_string s) = all_chars p s.
Proof.
  unfold Py.rev_string.
  rewrite !all_chars_list, list_ascii_of_string_of_list_ascii.
  apply eq_true_iff_eq. rewrite !forallb_forall.
  split; intros H c Hc; apply H; [apply -> in_rev | apply <- in_rev]; exact Hc.
Qed.

Lemma rev_string_involutive (s : string) :
  Py.rev_string (Py.rev_string s) = s.
Proof.
  unfold Py.rev_string.
  now rewrite list_ascii_of_string_of_list_ascii, rev_involutive,
    string_of_list_ascii_of_string.
Qed.

Lemma lstrip_absent (chars s : string) :
  all_chars (fun c => negb (Py.in_chars c chars)) s = true ->
  Py.lstrip chars s = s.
Proof.
  destruct s as [| c s]; simpl; [reflexivity |].
  rewrite andb_true_iff, negb_true_iff. now intros [-> _].
Qed.

Lemma strip_absent (chars s : string) :
  all_chars (fun c => negb (Py.in_chars c chars)) s = true ->
  Py.strip chars s = s.
Proof.
  intros Hs. unfold Py.strip, Py.rstrip.
  rewrite (lstrip_absent chars s Hs), lstrip_absent.
  - apply rev_string_involutive.
  - now rewrite all_chars_rev.
Qed.

Lemma lstrip_space_absent (s : string) :
  all_chars (fun c => negb (Uuid.is_space c)) s = true ->
  Uuid.lstrip_space s = s.
Proof.
  destruct s as [| c s]; simpl; [reflexivity |].
  rewrite andb_true_iff, negb_true_iff. now intros [-> _].
Qed.

Lemma strip_space_absent (s : string) :
  all_chars (fun c => negb (Uuid.is_space c)) s = true ->
  Uuid.strip_space s = s.
Proof.
  intros Hs. unfold Uuid.strip_space.
  rewrite (lstrip_space_absent s Hs), lstrip_space_absent.
  - apply rev_string_involutive.
  - now rewrite all_chars_rev.
Qed.

Lemma remove_dash_append (a b : string) :
  Py.remove_all "-" (a ++ b) = Py.remove_all "-" a ++ Py.remove_all "-" b.
Proof.
  unfold Py.remove_all. induction a as [| c a IH]; [reflexivity |].
  cbn -[Ascii.eqb]. rewrite andb_true_r.
  destruct (Ascii.eqb "-" c); cbn -[Ascii.eqb]; now rewrite IH.
Qed.

Lemma pieces32 (s : string) :
  String.length s = 32%nat ->
  substring 0 8 s ++ substring 8 4 s ++ substring 12 4 s
  ++ substring 16 4 s ++ substring 20 12 s = s.
Proof.
  intros Hlen.
  do 32 (destruct s as [| ? s]; [discriminate |]).
  destruct s; [reflexivity | discriminate].
Qed.

Lemma remove_dashes_str (u : Uuid.UUID) :
  Py.remove_all "-" (Uuid.str u) = Uuid.hex_digits 32 (Uuid.int u).
Proof.
  rewrite str_pieces. cbv zeta.
  destruct (hex_digits_facts (Uuid.int u) 32) as [Hlen Hall].
  set (hex := Uuid.hex_digits 32 (Uuid.int u)) in *. clearbody hex.
  assert (Hpiece : forall n m,
            Py.remove_all "-" (substring n m hex) = substring n m hex).
  { intros n m. apply remove_absent.
    apply all_chars_weaken with hex_lower; [apply hex_lower_no_dash |].
    now apply all_chars_substring. }
  rewrite !remove_dash_append, !Hpiece.
  change (Py.remove_all "-" "-") with "". simpl append.
  now apply pieces32.
Qed.

Lemma digits16_hex_digits (v : Z) (n : nat) :
  forall acc seen,
    (n <> 0%nat \/ seen = true) ->
    Uuid.digits16 acc false seen (Uuid.hex_digits n v)
    = Some (acc * 16 ^ Z.of_nat n + v mod 16 ^ Z.of_nat n)%Z.
Proof.
  induction n as [| n IH]; intros acc seen Hseen.
  - destruct Hseen as [Hn | ->]; [now elim Hn |]. simpl.
    rewrite Z.mod_1_r. f_equal. lia.
  - cbn -[Ascii.eqb Z.pow Z.of_nat Uuid.hex_char Uuid.hex_value].
    destruct (hex_char_facts ((v / 16 ^ Z.of_nat n) mod 16)%Z)
      as (_ & -> & ->); [apply Z.mod_pos_bound; lia |].
    rewrite IH by now right. f_equal.
    rewrite Nat2Z.inj_succ, Z.pow_succ_r by lia.
    rewrite (Z.mul_comm 16 (16 ^ Z.of_nat n)).
    rewrite (Z.rem_mul_r v (16 ^ Z.of_nat n) 16) by lia. ring.
Qed.

Lemma int16_hex (s : string) :
  all_chars hex_lower s = true ->
  Uuid.int16 s = Uuid.digits16 0 false false s.
Proof.
  intros Hs. unfold Uuid.int16.
  rewrite strip_space_absent
    by (revert Hs; apply all_chars_weaken, hex_lower_no_space).
  destruct s as [| c s]; [reflexivity |].
  simpl in Hs. apply andb_true_iff in Hs as [Hc Hs].
  destruct s as [| x s].
  - destruct c as [[] [] [] [] [] [] [] []]; try discriminate Hc; reflexivity.
  - simpl in Hs. apply andb_true_iff in Hs as [Hx Hs].
    assert (Hnox : Ascii.eqb x "x" || Ascii.eqb x "X" = false).
    { destruct x as [[] [] [] [] [] [] [] []]; try discriminate Hx;
        reflexivity. }
    destruct c as [[] [] [] [] [] [] [] []]; try discriminate Hc;
      cbn -[Ascii.eqb Uuid.digits16]; rewrite ?Hnox;
      cbn -[Ascii.eqb Uuid.digits16];
      destruct (Uuid.digits16 _ _ _ _); reflexivity.
Qed.

(** X13: the identifier the tab shows can be entered again.  For every
    text the validator accepts, the string form of the identifier has 36
    characters, lowercase hex digits and dashes, and the validator accepts
    that string and returns the same identifier. *)
Theorem uuid_round_trip :
  forall text u,
    Uuid.of_hex text = Ok u ->
    String.length (Uuid.str u) = 36%nat
    /\ all_chars canonical_char (Uuid.str u) = true
    /\ Uuid.of_hex (Uuid.str u) = Ok u.
Proof.
  intros text u Hparse.
  destruct (str_canonical u) as [Hlen Hcanon].
  split; [exact Hlen |]. split; [exact Hcanon |].
  assert (Hrange : (0 <= Uuid.int u < 2 ^ 128)%Z).
  { unfold Uuid.of_hex in Hparse.
    destruct (negb _); [discriminate |].
    destruct (Uuid.int16 _) as [i |]; [| discriminate].
    destruct ((0 <=? i)%Z && (i <? 2 ^ 128)%Z) eqn:Hin; [| discriminate].
    injection Hparse as <-. simpl.
    apply andb_true_iff in Hin as [Hlo Hhi]. lia. }
  unfold Uuid.of_hex.
  rewrite (remove_absent "u" "rn:")
    by (revert Hcanon; apply all_chars_weaken, canonical_no_u).
  rewrite (remove_absent "u" "uid:")
    by (revert Hcanon; apply all_chars_weaken, canonical_no_u).
  rewrite strip_absent
    by (revert Hcanon; apply all_chars_weaken, canonical_no_brace).
  rewrite remove_dashes_str.
  destruct (hex_digits_facts (Uuid.int u) 32) as [Hlen32 Hhex].
  rewrite Hlen32. simpl negb. cbv iota.
  rewrite (int16_hex _ Hhex), digits16_hex_digits by (left; discriminate).
  change (16 ^ Z.of_nat 32)%Z with (2 ^ 128)%Z.
  rewrite Z.mul_0_l, Z.add_0_l, Z.mod_small by exact Hrange.
  destruct Hrange as [Hlo Hhi].
  apply Z.leb_le in Hlo. apply Z.ltb_lt in Hhi. rewrite Hlo, Hhi.
  simpl. now destruct u.
Qed.

Lemma uuid_round_trip_witness :
  Uuid.of_hex "123e4567-e89b-12d3-a456-426614174000"
  = Ok {| Uuid.int := 24249434048109030647017182301789831168 |}.
Proof.
  destruct (uuid_round_trip "{urn:uuid:123E4567e89b12d3a456426614174000}"
              {| Uuid.int := 24249434048109030647017182301789831168 |})
    as [_ [_ Hagain]].
  - vm_compute. reflexivity.
  - exact Hagain.
Defined.

(** ** The pinger tab *)

Lemma tab1_accepted env ui u :
  st_text_input ui "Please enter the device UUID" <> "" ->
  Uuid.of_hex (st_text_input ui "Please enter the device UUID") = Ok u ->
  Tab1.tab1 env ui
  = match snowflake_query env (Uuid.str u) with
    | Raise e =>
        if is_ValueError e
        then ((shown_identifier u
               ++ [Tab1.StError Tab1.invalid_uuid_message])%list, None)
        else (shown_identifier u, Some e)
    | Ok df =>
        match filter_dataframe env ui df with
        | Raise e =>
            if is_ValueError e
            then ((shown_identifier u
                   ++ [Tab1.StError Tab1.invalid_uuid_message])%list, None)
            else (shown_identifier u, Some e)
        | Ok fd =>
            ((shown_identifier u
              ++ [Tab1.LineChart fd "END_DATE"
                    ["AVG_UPLOAD_SPEED"; "AVG_DOWNLOAD_SPEED"];
                  Tab1.StDataframe fd])%list, None)
        end
    end.
Proof.
  intros Htext Hparse. unfold Tab1.tab1, Tab1.try_body.
  rewrite (truthy_nonempty _ Htext), Hparse.
  destruct (snowflake_query env (Uuid.str u)) as [df | e]; [| reflexivity].
  destruct (filter_dataframe env ui df); reflexivity.
Qed.



(** X15: what the pinger tab does once the identifier is accepted.  It
    shows the identifier and issues the query.  A ValueError raised by the
    query is caught by the same handler as a malformed identifier, so the
    tab reports the UUID as invalid although it was accepted; any other
    exception of the query leaves the tab.  When the query and the filter
    return, the chart and the table are given the same filtered frame,
    which has the columns of the fetched one and at most its rows. *)
Theorem tab1_after_validation :
  forall env ui u,
    st_text_input ui "Please enter the device UUID" <> "" ->
    Uuid.of_hex (st_text_input ui "Please enter the device UUID") = Ok u ->
    (forall msg,
        snowflake_query env (Uuid.str u) = Raise (ValueError msg) ->
        Tab1.tab1 env ui
        = ((shown_identifier u
            ++ [Tab1.StError Tab1.invalid_uuid_message])%list, None))
    /\ (forall e,
          snowflake_query env (Uuid.str u) = Raise e ->
          is_ValueError e = false ->
          Tab1.tab1 env ui = (shown_identifier u, Some e))
    /\ (forall df fd,
          snowflake_query env (Uuid.str u) = Ok df ->
          filter_dataframe env ui df = Ok fd ->
          Tab1.tab1 env ui
          = ((shown_identifier u
              ++ [Tab1.LineChart fd "END_DATE"
                    ["AVG_UPLOAD_SPEED"; "AVG_DOWNLOAD_SPEED"];
                  Tab1.StDataframe fd])%list, None)
          /\ columns fd = columns df
          /\ (nrows fd <= nrows df)%nat).
Proof.
  intros env ui u Htext Hparse.
  rewrite (tab1_accepted env ui u Htext Hparse).
  split; [| split].
  - intros msg ->. reflexivity.
  - intros e -> ->. reflexivity.
  - intros df fd -> Hfd. rewrite Hfd. split; [reflexivity |].
    unfold filter_dataframe in Hfd.
    destruct (st_checkbox ui "Add filters"); simpl in Hfd.
    + apply filter_columns_masks in Hfd as [mask ->].
      rewrite columns_mask, columns_normalize. split; [reflexivity |].
      unfold nrows. simpl. apply select_length_le.
    + injection Hfd as <-. split; [reflexivity | lia].
Qed.

Lemma tab1_after_validation_witness :
  Tab1.tab1 (Example.env Sample.results) Sample.pinger_ui
  = ((shown_identifier
        {| Uuid.int := 24249434048109030647017182301789831168 |}
      ++ [Tab1.LineChart Sample.results "END_DATE"
            ["AVG_UPLOAD_SPEED"; "AVG_DOWNLOAD_SPEED"];
          Tab1.StDataframe Sample.results])%list, None).
Proof.
  assert (Htext : st_text_input Sample.pinger_ui "Please enter the device UUID"
                  <> "") by discriminate.
  destruct (tab1_after_validation (Example.env Sample.results)
              Sample.pinger_ui
              {| Uuid.int := 24249434048109030647017182301789831168 |}
              Htext) as [_ [_ Hshown]].
  - vm_compute. reflexivity.
  - apply (Hshown Sample.results Sample.results).
    + reflexivity.
    + vm_compute. reflexivity.
Defined.

(** ** The untouched date picker *)

Lemma time_max_In (l : list cell) (t : Z) :
  time_max l = CTime t -> In (CTime t) l.
Proof.
  revert t. induction l as [| x l IH]; intros t; simpl; [discriminate |].
  destruct x; try (intros H; right; now apply IH).
  destruct (time_max l) as [| | | | m |] eqn:Hmax;
    try (intros [= <-]; now left).
  intros [= <-]. destruct (Z.max_spec t0 m) as [[_ ->] | [_ ->]].
  - right. now apply IH.
  - now left.
Qed.

Lemma time_min_exists (l : list cell) (t : Z) :
  In (CTime t) l -> exists t0, time_min l = CTime t0.
Proof.
  induction l as [| x l IH]; simpl; [tauto |].
  intros [-> | Hin].
  - destruct (time_min l); eexists; reflexivity.
  - destruct (IH Hin) as [t0 Ht0]. rewrite Ht0.
    destruct x; eexists; reflexivity.
Qed.

Lemma select_length_lt {A B : Type} (p : B -> bool) (x : B) (vs : list B)
  (xs : list A) :
  In x vs -> p x = false ->
  List.length xs = List.length vs ->
  (List.length (select (map p vs) xs) < List.length xs)%nat.
Proof.
  revert xs. induction vs as [| v vs IH]; intros [| y xs] Hin Hp Hlen;
    simpl in *; try tauto; try discriminate.
  injection Hlen as Hlen. destruct Hin as [-> | Hin].
  - rewrite Hp. pose proof (select_length_le (map p vs) xs). lia.
  - specialize (IH xs Hin Hp Hlen). destruct (p v); simpl; lia.
Qed.

(** X16: left untouched, the date picker does not keep every row.  It
    shows the dates of the earliest and the latest timestamp, and the range
    ends at midnight of the latter: unless the latest timestamp of the
    column is itself a midnight, the rows holding it are dropped and the
    frame returned has fewer rows than the one filtered. *)
Theorem untouched_date_picker_drops_latest :
  forall env ui df name c t,
    leaves_defaults ui ->
    well_formed df = true ->
    get_column df name = Some c ->
    column_kind c = Temporal ->
    time_max (col_values c) = CTime t ->
    t <> to_datetime_date (date_of t) ->
    exists r,
      filter_column env ui df name = Ok r
      /\ (nrows r < nrows df)%nat.
Proof.
  intros env ui df name c t (_ & _ & Hdates & _) Hwf Hget Hkind Hmax Hlate.
  pose proof (time_max_In _ _ Hmax) as Hin.
  destruct (time_min_exists _ _ Hin) as [t0 Hmin].
  destruct (date_range_filter_core env ui df name c (date_of t0) (date_of t))
    as [r Hr]; try assumption.
  { rewrite Hdates, Hmin, Hmax. reflexivity. }
  exists r. split; [exact (proj1 Hr) |]. destruct Hr as [_ ->].
  unfold nrows. simpl.
  apply select_length_lt with (CTime t); [exact Hin | |].
  - simpl. rewrite Z.ltb_irrefl. simpl.
    apply andb_false_iff. right. now apply Z.eqb_neq.
  - symmetry. apply (well_formed_length df c Hwf).
    now apply get_column_In with name.
Qed.

Lemma untouched_date_picker_drops_latest_witness :
  exists r,
    filter_column (Example.env Sample.pings) (default_ui ["END_DATE"])
      Sample.speed_tests "END_DATE" = Ok r
    /\ (nrows r < nrows Sample.speed_tests)%nat.
Proof.
  apply (untouched_date_picker_drops_latest (Example.env Sample.pings)
           (default_ui ["END_DATE"]) Sample.speed_tests "END_DATE"
           {| col_name := "END_DATE"; col_dtype := Datetime64 None;
              col_values := map (fun d => CTime (Sample.noon d))
                                [19723; 19724; 19725; 19726; 19727;
                                 19728; 19729; 19730; 19731; 19732]%Z |}
           (Sample.noon 19732)).
  - apply default_ui_leaves_defaults.
  - reflexivity.
  - reflexivity.
  - reflexivity.
  - vm_compute. reflexivity.
  - vm_compute. discriminate.
Defined.
